(** * jupyterlab-marimo: the conversion request handler

    A shallow embedding of [jupyterlab_marimo/handlers.py].

    Conventions.
    - A Python [str] is a [string]; every [ascii] stands for the character
      with that code point, so the model covers the strings whose code
      points are below 256.
    - [os.sep] and [os.path] are those of a POSIX host ([posixpath]):
      the separator is ["/"].
    - The handler is [ConvertHandler.post] after [tornado.web.authenticated]
      has let the request through.
    - The host (request body, server settings, file system, child process)
      is passed explicitly; the handler returns the response together with
      the log of child processes it started and the file system it leaves. *)

From Stdlib Require Import String Ascii List ZArith Bool Arith Lia.
From Stdlib Require Import Floats.PrimFloat.
Import ListNotations.

Local Open Scope list_scope.
Local Open Scope string_scope.

Set Warnings "-register-all".

(** ** Python [str] operations used by the handler *)
Module PyStr.

(** [s.startswith(p)] *)
Definition startswith (s p : string) : bool := String.prefix p s.

(** [s.endswith(p)] *)
Fixpoint endswith (s p : string) : bool :=
  if String.eqb s p then true
  else match s with
       | EmptyString => false
       | String _ t => endswith t p
       end.

(** [s[:-6]]: everything but the last six characters (empty when [s] is
    shorter than six). *)
Definition drop_last6 (s : string) : string :=
  substring 0 (String.length s - 6) s.

(** [s[i:]] for [0 <= i] *)
Fixpoint slice_from (i : nat) (s : string) : string :=
  match i, s with
  | O, _ => s
  | S _, EmptyString => EmptyString
  | S j, String _ t => slice_from j t
  end.

(** [s.rfind(c) + 1] for a one-character [c]: one past the index of the
    last occurrence of [c], and [0] when there is none ([rfind] answers
    [-1] then). *)
Fixpoint rfind_succ (c : ascii) (s : string) : nat :=
  match s with
  | EmptyString => 0
  | String d t =>
      match rfind_succ c t with
      | O => if Ascii.eqb d c then 1 else 0
      | S k => S (S k)
      end
  end.

(** [s.split(c)] for a one-character separator [c] *)
Fixpoint split (c : ascii) (s : string) : list string :=
  match s with
  | EmptyString => [EmptyString]
  | String d t =>
      if Ascii.eqb d c then EmptyString :: split c t
      else match split c t with
           | h :: r => String d h :: r
           | [] => [String d EmptyString]
           end
  end.

(** [ch.isspace()] on the code points below 256: TAB, LF, VT, FF, CR,
    the separators 28 to 31, space, NEL (133) and NBSP (160). *)
Definition isspace (a : ascii) : bool :=
  let n := nat_of_ascii a in
  (((9 <=? n) && (n <=? 13)) || ((28 <=? n) && (n <=? 32))
   || (n =? 133) || (n =? 160))%nat.

(** [s.lstrip()] *)
Fixpoint lstrip (s : string) : string :=
  match s with
  | EmptyString => EmptyString
  | String a t => if isspace a then lstrip t else s
  end.

(** [s.rstrip()] *)
Fixpoint rstrip (s : string) : string :=
  match s with
  | EmptyString => EmptyString
  | String a t =>
      match rstrip t with
      | EmptyString => if isspace a then EmptyString else String a EmptyString
      | r => String a r
      end
  end.

(** [s.strip()] *)
Definition strip (s : string) : string := rstrip (lstrip s).

(** [sub in s] *)
Fixpoint contains (s sub : string) : bool :=
  if String.prefix sub s then true
  else match s with
       | EmptyString => false
       | String _ t => contains t sub
       end.

(** Truth value of a string: [not s] holds for the empty string only. *)
Definition truthy (s : string) : bool :=
  match s with EmptyString => false | _ => true end.

End PyStr.

(** ** [os.path] on a POSIX host *)
Module OsPath.

Definition sep : ascii := "/"%char.

(** [posixpath.basename]: [i = p.rfind('/') + 1; return p[i:]] *)
Definition basename (p : string) : string :=
  PyStr.slice_from (PyStr.rfind_succ sep p) p.

(** [posixpath.join a b]: an absolute [b] replaces [a]; otherwise [b] is
    appended, after a separator unless [a] is empty or already ends
    with one. *)
Definition join (a b : string) : string :=
  if PyStr.startswith b "/" then b
  else if negb (PyStr.truthy a) || PyStr.endswith a "/" then a ++ b
  else a ++ "/" ++ b.

End OsPath.

(** ** [_validate_path] *)

Definition msg_empty : string := "Path cannot be empty".
Definition msg_basename : string :=
  "File names starting with '-' are not allowed".
Definition msg_component : string :=
  "Path components starting with '-' are not allowed".

(** The [for part in path.split(os.sep)] loop: [true] when it returns from
    inside, that is when some part starts with ["-"]. *)
Fixpoint some_part_dashed (parts : list string) : bool :=
  match parts with
  | [] => false
  | part :: rest =>
      if PyStr.startswith part "-" then true else some_part_dashed rest
  end.

Definition _validate_path (path : string) : bool * option string :=
  if negb (PyStr.truthy path) then (false, Some msg_empty)
  else if PyStr.startswith (OsPath.basename path) "-"
       then (false, Some msg_basename)
  else if some_part_dashed (PyStr.split OsPath.sep path)
       then (false, Some msg_component)
  else (true, None).

(** ** Values decoded from JSON, and what the handler observes of them *)

(** A [dict] keeps its pairs in the order of the text; a later pair
    overrides an earlier one with the same key, as [json.loads] does. *)
Inductive json : Type :=
| JNull
| JBool (b : bool)
| JInt (z : Z)
| JFloat (f : float)
| JStr (s : string)
| JList (l : list json)
| JDict (kv : list (string * json)).

Module Py.

(** [bool(v)] *)
Definition truthy (v : json) : bool :=
  match v with
  | JNull => false
  | JBool b => b
  | JInt z => negb (Z.eqb z 0)
  | JFloat f => negb (PrimFloat.eqb f 0%float)
  | JStr s => PyStr.truthy s
  | JList l => match l with [] => false | _ => true end
  | JDict kv => match kv with [] => false | _ => true end
  end.

(** [type(v).__name__] *)
Definition type_name (v : json) : string :=
  match v with
  | JNull => "NoneType"
  | JBool _ => "bool"
  | JInt _ => "int"
  | JFloat _ => "float"
  | JStr _ => "str"
  | JList _ => "list"
  | JDict _ => "dict"
  end.

(** [v == s] for a string literal [s] *)
Definition eq_str (v : json) (s : string) : bool :=
  match v with
  | JStr t => String.eqb t s
  | _ => false
  end.

(** [d.get(k)]: the value of the last pair with key [k], else [None]. *)
Fixpoint dict_get (kv : list (string * json)) (k : string) : json :=
  match kv with
  | [] => JNull
  | (k', v) :: rest =>
      if existsb (fun p => String.eqb (fst p) k) rest then dict_get rest k
      else if String.eqb k' k then v
      else JNull
  end.

End Py.

(** ** Exceptions *)

Inductive exc_class : Type :=
| JSONDecodeError
| FileNotFoundError
| TimeoutExpired
| AttributeError
| TypeError
| HTTPError
| OtherException.

(** An exception: its class and [str(e)]. *)
Record exception : Type := Exc { exc_kind : exc_class; exc_str : string }.

(** ** [subprocess.run] *)

Record run_call : Type := RunCall {
  args : list string;
  capture_output : bool;
  text : bool;
  timeout : option Z   (* seconds *)
}.

Inductive run_result : Type :=
| CompletedProcess (returncode : Z) (stdout stderr : string)
| Raised (e : exception).

(** ** The request as the handler sees it *)

(** [settings["contents_manager"]]; [root_dir] is [None] when the object
    has no such attribute. *)
Record ContentsManager : Type := { root_dir : option string }.

Record Request : Type := {
  json_body : exception + json;            (* what [self.get_json_body()] does *)
  contents_manager : option ContentsManager  (* [self.settings.get(...)] *)
}.

Record Response : Type := { status : Z; body : json }.

(** [json.dumps({"success": False, "error": msg})] *)
Definition failure (msg : json) : json :=
  JDict [("success", JBool false); ("error", msg)].

(** [json.dumps({"success": True, "outputPath": p})] *)
Definition succeeded (p : string) : json :=
  JDict [("success", JBool true); ("outputPath", JStr p)].

Definition of_optional (m : option string) : json :=
  match m with Some s => JStr s | None => JNull end.

Definition msg_source_required : string := "sourcePath is required".
Definition msg_direction : string :=
  "direction must be 'to_marimo' or 'from_marimo'".
Definition msg_not_found (source_path : string) : string :=
  "Source file not found: " ++ source_path.
Definition msg_need_ipynb : string :=
  "Source file must be a .ipynb file for to_marimo conversion".
Definition msg_need_mo_py : string :=
  "Source file must be a .mo.py file for from_marimo conversion".
Definition msg_invalid_json : string := "Invalid JSON body".
Definition msg_no_cli : string :=
  "marimo CLI not found. Please ensure marimo is installed.".
Definition msg_convert_timeout : string :=
  "Conversion timed out after 30 seconds".
Definition msg_export_timeout : string :=
  "Export timed out after 30 seconds".

(** [source_path[:-6] + ".mo.py"] and [source_path[:-6] + ".ipynb"] *)
Definition output_to_marimo (source_path : string) : string :=
  PyStr.drop_last6 source_path ++ ".mo.py".
Definition output_from_marimo (source_path : string) : string :=
  PyStr.drop_last6 source_path ++ ".ipynb".

Definition convert_call (source_path output_path : string) : run_call :=
  {| args := ["marimo"; "convert"; source_path; "-o"; output_path];
     capture_output := true; text := true; timeout := Some 30%Z |}.

Definition export_call (source_path output_path : string) : run_call :=
  {| args := ["marimo"; "export"; "ipynb"; source_path; "-o"; output_path];
     capture_output := true; text := true; timeout := Some 30%Z |}.

(** The file system, and the three operations of the operating system the
    handler calls.  Only [subprocess_run] can change the file system. *)
Class Host : Type := {
  FS : Type;
  os_path_isfile : FS -> string -> bool;
  os_getcwd : FS -> exception + string;
  subprocess_run : FS -> run_call -> run_result * FS
}.

Section Handler.

Context {host : Host}.

(** What a request has done so far: the file system and the child
    processes started, oldest first. *)
Record World : Type := { fs : FS; spawned : list run_call }.

Definition run (c : run_call) (w : World) : run_result * World :=
  let (r, fs') := subprocess_run (fs w) c in
  (r, {| fs := fs'; spawned := (spawned w ++ [c])%list |}).

Definition _convert_to_marimo (source_path output_path : string) (w : World)
  : (bool * option string) * World :=
  match run (convert_call source_path output_path) w with
  | (CompletedProcess returncode _ stderr, w') =>
      if negb (Z.eqb returncode 0) then
        let error_msg :=
          if PyStr.truthy stderr then PyStr.strip stderr
          else "Unknown conversion error" in
        ((false, Some ("Conversion failed: " ++ error_msg)), w')
      else ((true, None), w')
  | (Raised e, w') =>
      match exc_kind e with
      | FileNotFoundError => ((false, Some msg_no_cli), w')
      | TimeoutExpired => ((false, Some msg_convert_timeout), w')
      | _ => ((false, Some ("Conversion error: " ++ exc_str e)), w')
      end
  end.

Definition _convert_from_marimo (source_path output_path : string) (w : World)
  : (bool * option string) * World :=
  match run (export_call source_path output_path) w with
  | (CompletedProcess returncode _ stderr, w') =>
      if negb (Z.eqb returncode 0) then
        let error_msg :=
          if PyStr.truthy stderr then PyStr.strip stderr
          else "Unknown export error" in
        ((false, Some ("Export failed: " ++ error_msg)), w')
      else ((true, None), w')
  | (Raised e, w') =>
      match exc_kind e with
      | FileNotFoundError => ((false, Some msg_no_cli), w')
      | TimeoutExpired => ((false, Some msg_export_timeout), w')
      | _ => ((false, Some ("Export error: " ++ exc_str e)), w')
      end
  end.

(** The root directory: the contents manager's [root_dir] when there is a
    contents manager with that attribute, else [os.getcwd()]. *)
Definition get_root_dir (req : Request) (w : World) : exception + string :=
  match contents_manager req with
  | Some cm =>
      match root_dir cm with
      | Some d => inr d
      | None => os_getcwd (fs w)
      end
  | None => os_getcwd (fs w)
  end.

(** The last step: [self.finish] on the outcome of the converter. *)
Definition respond (output_path : string) (r : (bool * option string) * World)
  : Response * World :=
  let '((success, error), w') := r in
  if success
  then ({| status := 200; body := succeeded output_path |}, w')
  else ({| status := 500; body := failure (of_optional error) |}, w').

(** A response sent from inside the [try]. *)
Definition sent (r : Response * World) : (exception + Response) * World :=
  (inr (fst r), snd r).

Definition bad_request (msg : string) (w : World)
  : (exception + Response) * World :=
  (inr {| status := 400; body := failure (JStr msg) |}, w).

(** From [full_source_path = os.path.join(root_dir, source_path)] on. *)
Definition convert (direction : json) (root source_path : string) (w : World)
  : (exception + Response) * World :=
  let full_source_path := OsPath.join root source_path in
  if negb (os_path_isfile (fs w) full_source_path)
  then bad_request (msg_not_found source_path) w
  else if Py.eq_str direction "to_marimo" then
    if negb (PyStr.endswith source_path ".ipynb")
    then bad_request msg_need_ipynb w
    else
      let output_path := output_to_marimo source_path in
      let full_output_path := OsPath.join root output_path in
      sent (respond output_path
              (_convert_to_marimo full_source_path full_output_path w))
  else
    if negb (PyStr.endswith source_path ".mo.py")
    then bad_request msg_need_mo_py w
    else
      let output_path := output_from_marimo source_path in
      let full_output_path := OsPath.join root output_path in
      sent (respond output_path
              (_convert_from_marimo full_source_path full_output_path w)).

(** The body of the [try] of [ConvertHandler.post]: a response, or the
    exception that leaves it. *)
Definition post_try (req : Request) (w : World)
  : (exception + Response) * World :=
  match json_body req with
  | inl e => (inl e, w)
  | inr (JDict kv) =>
      let source_path := Py.dict_get kv "sourcePath" in
      let direction := Py.dict_get kv "direction" in
      if negb (Py.truthy source_path)
      then bad_request msg_source_required w
      else if negb (Py.eq_str direction "to_marimo"
                    || Py.eq_str direction "from_marimo")
      then bad_request msg_direction w
      else
        match source_path with
        | JStr path =>
            let (is_valid, validation_error) := _validate_path path in
            if negb is_valid
            then (inr {| status := 400;
                         body := failure (of_optional validation_error) |}, w)
            else
              match get_root_dir req w with
              | inl e => (inl e, w)
              | inr root => convert direction root path w
              end
        | other =>
            (* [os.path.basename] calls [os.fspath] on it *)
            (inl (Exc TypeError
                    ("expected str, bytes or os.PathLike object, not "
                     ++ Py.type_name other)), w)
        end
  | inr data =>
      (* [data.get] on a value that is no [dict] *)
      (inl (Exc AttributeError
              ("'" ++ Py.type_name data
               ++ "' object has no attribute 'get'")), w)
  end.

(** [ConvertHandler.post]: the two [except] clauses around the [try]. *)
Definition post (req : Request) (w : World) : Response * World :=
  match post_try req w with
  | (inr resp, w') => (resp, w')
  | (inl e, w') =>
      match exc_kind e with
      | JSONDecodeError =>
          ({| status := 400; body := failure (JStr msg_invalid_json) |}, w')
      | _ => ({| status := 500; body := failure (JStr (exc_str e)) |}, w')
      end
  end.

(** One request on a file system, with no child process started yet. *)
Definition handle (req : Request) (files : FS) : Response * World :=
  post req {| fs := files; spawned := [] |}.

(** The request got as far as the converter: [kv] is its body, [path]
    its source path and [root] the root directory. *)
Definition started (req : Request) (w : World)
           (kv : list (string * json)) (path root : string) : Prop :=
  json_body req = inr (JDict kv)
  /\ Py.dict_get kv "sourcePath" = JStr path
  /\ fst (_validate_path path) = true
  /\ get_root_dir req w = inr root
  /\ os_path_isfile (fs w) (OsPath.join root path) = true
  /\ ((Py.dict_get kv "direction" = JStr "to_marimo"
       /\ PyStr.endswith path ".ipynb" = true
       /\ post req w =
          respond (output_to_marimo path)
            (_convert_to_marimo (OsPath.join root path)
               (OsPath.join root (output_to_marimo path)) w))
      \/ (Py.dict_get kv "direction" = JStr "from_marimo"
          /\ PyStr.endswith path ".mo.py" = true
          /\ post req w =
             respond (output_from_marimo path)
               (_convert_from_marimo (OsPath.join root path)
                  (OsPath.join root (output_from_marimo path)) w))).

End Handler.

(** ** Containment of a path under a directory *)

(** Containment is lexical, on the parts the path resolves to as
    [posixpath.normpath] resolves them: empty parts and ["."] vanish and
    [".."] removes the part before it. *)
Module Contain.

Definition is_absolute (p : string) : bool := PyStr.startswith p "/".

(** A part that names something: neither empty nor ["."]. *)
Definition proper (part : string) : bool :=
  negb (String.eqb part "" || String.eqb part ".").

(** One part applied to the parts kept so far (innermost first).  Above
    the root of an absolute path [".."] stays at the root; above the start
    of a relative path it is kept. *)
Definition step (absolute : bool) (kept : list string) (part : string)
  : list string :=
  if negb (proper part) then kept
  else if String.eqb part ".." then
    match kept with
    | [] => if absolute then [] else [part]
    | top :: below => if String.eqb top ".." then part :: kept else below
    end
  else part :: kept.

(** The parts a path resolves to, outermost first. *)
Definition resolve (p : string) : list string :=
  rev (fold_left (step (is_absolute p)) (PyStr.split OsPath.sep p) []).

Fixpoint is_prefix (xs ys : list string) : bool :=
  match xs, ys with
  | [], _ => true
  | x :: xs', y :: ys' => String.eqb x y && is_prefix xs' ys'
  | _ :: _, [] => false
  end.

(** [p] lies in the directory [root] or below it. *)
Definition contained_under (root p : string) : bool :=
  Bool.eqb (is_absolute root) (is_absolute p)
  && is_prefix (resolve root) (resolve p).

(** No part of the path is [".."]. *)
Definition no_dotdot (p : string) : bool :=
  forallb (fun part => negb (String.eqb part ".."))
          (PyStr.split OsPath.sep p).

End Contain.

(** ** The inherited [get_json_body] *)

(** [ConvertHandler] inherits [get_json_body] from [APIHandler] of
    jupyter_server, which is not part of this repository: an empty body
    gives [None]; any failure of [json.loads] is turned into
    [tornado.web.HTTPError(400, "Invalid JSON in body of request")]; a
    failure to decode the bytes leaves as it is. *)
Module JupyterServer.

Definition msg_bad_json : string :=
  "HTTP 400: Bad Request (Invalid JSON in body of request)".

Section Body.

(** [body.strip().decode("utf-8")] and [json.loads]; [None] when
    [json.loads] raises. *)
Variable decode : string -> exception + string.
Variable json_loads : string -> option json.

Definition get_json_body (request_body : string) : exception + json :=
  if negb (PyStr.truthy request_body) then inr JNull
  else
    match decode request_body with
    | inl e => inl e
    | inr body =>
        match json_loads body with
        | Some model => inr model
        | None => inl (Exc HTTPError msg_bad_json)
        end
    end.

End Body.

End JupyterServer.

(** ** [subprocess.run] over the child processes of the server *)

(** [subprocess.run] belongs to Python, not to this repository.  It starts
    the child with [Popen] and waits for it with
    [communicate(timeout=...)]; when that returns, the child has ended and
    has been waited for; when that raises, [TimeoutExpired] or anything
    else, [run] kills the child and waits for it before the exception goes
    on to the caller.  When [Popen] itself raises there is no child.  The
    model keeps the table of the children that run, and a [Machine] says
    what the programs on it do. *)
Module Subprocess.

Definition pid : Type := nat.

(** What [communicate] finds. *)
Inductive waited : Type :=
| Exited (returncode : Z) (stdout stderr : string)
| Expired (msg : string)      (* the time is up and the child still runs;
                                 [msg] is the text of [TimeoutExpired] *)
| Interrupted (e : exception).  (* another exception; the child still runs *)

Class Machine : Type := {
  Files : Type;
  isfile : Files -> string -> bool;
  getcwd : Files -> exception + string;
  (** the exception of [Popen] when the program cannot be started *)
  cannot_start : Files -> list string -> option exception;
  (** what the child has done when [communicate] comes back, within the
      time allowed, and the files it leaves *)
  child : Files -> list string -> option Z -> waited * Files
}.

Section Run.

Context {machine : Machine}.

(** The files and the children of the server that run. *)
Record State : Type := { files : Files; running : list pid }.

(** A process id that no running child has. *)
Definition fresh (ps : list pid) : pid := S (list_max ps).

(** [Popen(args, ...)] *)
Definition popen (s : State) (argv : list string) : (exception + pid) * State :=
  match cannot_start (files s) argv with
  | Some e => (inl e, s)
  | None =>
      let p := fresh (running s) in
      (inr p, {| files := files s; running := p :: running s |})
  end.

(** [process.communicate(timeout=t)] *)
Definition communicate (s : State) (p : pid) (argv : list string)
           (t : option Z) : waited * State :=
  let (r, f) := child (files s) argv t in
  match r with
  | Exited _ _ _ =>
      (r, {| files := f; running := remove Nat.eq_dec p (running s) |})
  | _ => (r, {| files := f; running := running s |})
  end.

(** [process.kill()] and [process.wait()] *)
Definition kill_wait (s : State) (p : pid) : State :=
  {| files := files s; running := remove Nat.eq_dec p (running s) |}.

(** [subprocess.run(args, capture_output=True, text=True, timeout=t)] *)
Definition run (s : State) (c : run_call) : run_result * State :=
  match popen s (args c) with
  | (inl e, s1) => (Raised e, s1)
  | (inr p, s1) =>
      match communicate s1 p (args c) (timeout c) with
      | (Exited returncode stdout stderr, s2) =>
          (CompletedProcess returncode stdout stderr, s2)
      | (Expired msg, s2) => (Raised (Exc TimeoutExpired msg), kill_wait s2 p)
      | (Interrupted e, s2) => (Raised e, kill_wait s2 p)
      end
  end.

(** The host of the handler on such a machine. *)
Definition host : Host :=
  {| FS := State;
     os_path_isfile := fun s => isfile (files s);
     os_getcwd := fun s => getcwd (files s);
     subprocess_run := run |}.

End Run.

End Subprocess.

(** ** A concrete host, for running the handler on examples *)
Module Demo.

(** The path after ["-o"] in an argument list. *)
Fixpoint output_of (argv : list string) : option string :=
  match argv with
  | flag :: rest =>
      if String.eqb flag "-o"
      then match rest with p :: _ => Some p | [] => None end
      else output_of rest
  | [] => None
  end.

(** A child process that ends as [r] says and, when it exits with code
    0, has written its output file. *)
Definition marimo (r : run_result) (files : list string) (c : run_call)
  : run_result * list string :=
  match r, output_of (args c) with
  | CompletedProcess 0 _ _, Some p => (r, p :: files)
  | _, _ => (r, files)
  end.

(** The file system is the list of the paths of its regular files; the
    working directory is [/home/ann]; the child process ends as [r]
    says. *)
Definition host (r : run_result) : Host :=
  {| FS := list string;
     os_path_isfile := fun files p => existsb (String.eqb p) files;
     os_getcwd := fun _ => inr "/home/ann";
     subprocess_run := marimo r |}.

(** The state before a request: the files, and no child process yet. *)
Definition world (r : run_result) (files : list string) : @World (host r) :=
  @Build_World (host r) files [].

Definition handle (r : run_result) (req : Request) (files : list string)
  : Response * @World (host r) :=
  @handle (host r) req files.

Definition timed_out : run_result :=
  Raised (Exc TimeoutExpired
            "Command '['marimo', 'convert']' timed out after 30 seconds").

Definition server : option ContentsManager :=
  Some {| root_dir := Some "/srv/nb" |}.

(** The request [{"sourcePath": p, "direction": d}]. *)
Definition request (p d : string) : Request :=
  {| json_body := inr (JDict [("sourcePath", JStr p); ("direction", JStr d)]);
     contents_manager := server |}.

Definition ok : run_result := CompletedProcess 0 "" "".

(** A machine on which [marimo] starts and never ends in time. *)
Definition slow : Subprocess.Machine :=
  {| Subprocess.Files := list string;
     Subprocess.isfile := fun files p => existsb (String.eqb p) files;
     Subprocess.getcwd := fun _ => inr "/home/ann";
     Subprocess.cannot_start := fun _ _ => None;
     Subprocess.child := fun files _ _ =>
       (Subprocess.Expired "Command 'marimo' timed out after 30 seconds",
        files) |}.

(** Its state with the given files and one other child running. *)
Definition slow_world (files : list string)
  : @World (@Subprocess.host slow) :=
  @Build_World (@Subprocess.host slow)
    (@Subprocess.Build_State slow files [7]) [].

End Demo.

(** * Properties *)

(** ** Strings *)
Section StringFacts.

Lemma endswith_cons (a : ascii) (s p : string) :
  PyStr.endswith (String a s) p =
  if String.eqb (String a s) p then true else PyStr.endswith s p.
Proof. reflexivity. Qed.

Lemma endswith_refl (s : string) : PyStr.endswith s s = true.
Proof.
  destruct s as [|a s]; [reflexivity|].
  now rewrite endswith_cons, String.eqb_refl.
Qed.

Lemma endswith_app (x p : string) : PyStr.endswith (x ++ p) p = true.
Proof.
  induction x as [|a x IH]; [apply endswith_refl|].
  change (String a x ++ p) with (String a (x ++ p)).
  rewrite endswith_cons, IH. now destruct (String.eqb _ _).
Qed.

Lemma endswith_inv (s p : string) :
  PyStr.endswith s p = true -> exists x, s = x ++ p.
Proof.
  induction s as [|a s IH].
  - cbn [PyStr.endswith]. destruct (String.eqb "" p) eqn:E; [|discriminate].
    apply String.eqb_eq in E. intros _. exists "". now subst.
  - rewrite endswith_cons. destruct (String.eqb (String a s) p) eqn:E.
    + apply String.eqb_eq in E. intros _. exists "". now subst.
    + intros H. destruct (IH H) as [x ->]. now exists (String a x).
Qed.

Lemma substring_prefix (x y : string) :
  substring 0 (String.length x) (x ++ y) = x.
Proof.
  induction x as [|a x IH]; simpl.
  - now destruct y.
  - now rewrite IH.
Qed.

Lemma length_app (x y : string) :
  String.length (x ++ y) = String.length x + String.length y.
Proof. induction x; simpl; congruence. Qed.

Lemma drop_last6_app (x p : string) :
  String.length p = 6 -> PyStr.drop_last6 (x ++ p) = x.
Proof.
  intros H. unfold PyStr.drop_last6.
  rewrite length_app, H, Nat.add_sub. apply substring_prefix.
Qed.

Lemma split_not_nil (c : ascii) (s : string) : PyStr.split c s <> [].
Proof.
  destruct s as [|d t]; simpl; [discriminate|].
  destruct (Ascii.eqb d c); [discriminate|].
  destruct (PyStr.split c t); discriminate.
Qed.

(** No separator: the string is its only part. *)
Lemma split_single (c : ascii) (s : string) :
  PyStr.rfind_succ c s = 0 -> PyStr.split c s = [s].
Proof.
  induction s as [|d t IH]; simpl; [reflexivity|].
  destruct (PyStr.rfind_succ c t); [|discriminate].
  destruct (Ascii.eqb d c); [discriminate|].
  intros _. now rewrite IH.
Qed.

(** A separator: at least two parts. *)
Lemma split_many (c : ascii) (s : string) (k : nat) :
  PyStr.rfind_succ c s = S k ->
  exists h x r, PyStr.split c s = h :: x :: r.
Proof.
  revert k. induction s as [|d t IH]; simpl; [discriminate|].
  intros k. destruct (PyStr.rfind_succ c t) as [|j] eqn:E.
  - destruct (Ascii.eqb d c); [|discriminate].
    intros _. rewrite (split_single _ _ E). now exists "", t, [].
  - intros _. destruct (IH j eq_refl) as (h & x & r & ->).
    destruct (Ascii.eqb d c); eauto.
Qed.

(** [p[p.rfind(c) + 1:]] is the last part of [p.split(c)]. *)
Lemma slice_rfind_last (c : ascii) (p : string) :
  PyStr.slice_from (PyStr.rfind_succ c p) p = last (PyStr.split c p) "".
Proof.
  induction p as [|d t IH]; [reflexivity|].
  cbn [PyStr.rfind_succ PyStr.split].
  destruct (PyStr.rfind_succ c t) as [|j] eqn:E.
  - rewrite (split_single _ _ E).
    destruct (Ascii.eqb d c); reflexivity.
  - destruct (split_many _ _ _ E) as (h & x & r & Hs).
    change (PyStr.slice_from (S (S j)) (String d t))
      with (PyStr.slice_from (S j) t).
    rewrite IH, Hs.
    destruct (Ascii.eqb d c); reflexivity.
Qed.

Lemma basename_last (p : string) :
  OsPath.basename p = last (PyStr.split OsPath.sep p) "".
Proof. apply slice_rfind_last. Qed.

Lemma some_part_dashed_spec (parts : list string) :
  some_part_dashed parts = true <->
  exists part, In part parts /\ PyStr.startswith part "-" = true.
Proof.
  induction parts as [|q rest IH]; simpl.
  - split; [discriminate | intros (? & [] & _)].
  - destruct (PyStr.startswith q "-") eqn:E.
    + split; [intros _; exists q; auto | reflexivity].
    + rewrite IH. split.
      * intros (x & Hin & Hx). exists x; auto.
      * intros (x & [<- | Hin] & Hx); [congruence | exists x; auto].
Qed.

Lemma last_in (l : list string) (d : string) : l <> [] -> In (last l d) l.
Proof.
  induction l as [|a l IH]; [congruence|]. intros _.
  destruct l as [|b l]; [now left|].
  right. apply IH. discriminate.
Qed.

(** The check on the basename never fires alone. *)
Lemma basename_dashed_part (p : string) :
  PyStr.startswith (OsPath.basename p) "-" = true ->
  some_part_dashed (PyStr.split OsPath.sep p) = true.
Proof.
  intros H. apply some_part_dashed_spec.
  exists (OsPath.basename p). split; [|exact H].
  rewrite basename_last. apply last_in, split_not_nil.
Qed.

Lemma prefix_refl (s : string) : String.prefix s s = true.
Proof.
  induction s as [|a s IH]; cbn; [reflexivity|].
  destruct (ascii_dec a a); [exact IH | congruence].
Qed.

Lemma contains_cons (a : ascii) (s sub : string) :
  PyStr.contains (String a s) sub =
  if String.prefix sub (String a s) then true else PyStr.contains s sub.
Proof. reflexivity. Qed.

Lemma contains_app (x y : string) : PyStr.contains (x ++ y) y = true.
Proof.
  induction x as [|a x IH].
  - destruct y as [|b y]; [reflexivity|].
    cbn [append]. now rewrite contains_cons, prefix_refl.
  - change (String a x ++ y) with (String a (x ++ y)).
    rewrite contains_cons, IH. now destruct (String.prefix _ _).
Qed.

End StringFacts.

(** ** The path validator *)

Lemma validate_accepts (path : string) :
  fst (_validate_path path) = true <->
  path <> "" /\ some_part_dashed (PyStr.split OsPath.sep path) = false.
Proof.
  unfold _validate_path.
  destruct path as [|a t]; cbn [PyStr.truthy negb fst].
  - split; [discriminate | intros [H _]; congruence].
  - destruct (PyStr.startswith (OsPath.basename (String a t)) "-") eqn:B.
    + apply basename_dashed_part in B. rewrite B. cbn [fst].
      split; [discriminate | intros [_ H]; discriminate].
    + destruct (some_part_dashed _); cbn [fst];
        (split; [intros H; split; [discriminate | congruence]
                | intros [_ H]; congruence]).
Qed.

Lemma validate_message (path : string) :
  (fst (_validate_path path) = true -> snd (_validate_path path) = None) /\
  (fst (_validate_path path) = false ->
   exists m, snd (_validate_path path) = Some m).
Proof.
  unfold _validate_path.
  destruct (negb (PyStr.truthy path));
    [|destruct (PyStr.startswith _ _);
      [|destruct (some_part_dashed _)]];
    cbn [fst snd]; split; intros H; try discriminate; eauto.
Qed.

(** C9: [_validate_path] answers on every string with a pair whose message
    is present exactly on rejection; it rejects a path exactly when the path
    is empty or some part of it, split on the separator, begins with a dash;
    and whenever the basename begins with a dash, so does some part, so the
    basename check rejects nothing the part check would accept. *)
Theorem C9_validate_path_characterised :
  forall path : string,
    (fst (_validate_path path) = false <->
     path = "" \/
     exists part, In part (PyStr.split OsPath.sep path)
                  /\ PyStr.startswith part "-" = true)
    /\ (PyStr.startswith (OsPath.basename path) "-" = true ->
        exists part, In part (PyStr.split OsPath.sep path)
                     /\ PyStr.startswith part "-" = true)
    /\ (fst (_validate_path path) = true -> snd (_validate_path path) = None)
    /\ (fst (_validate_path path) = false ->
        exists m, snd (_validate_path path) = Some m).
Proof.
  intros path. split; [|split; [|apply validate_message]].
  - rewrite <- some_part_dashed_spec.
    pose proof (validate_accepts path) as A.
    destruct (fst (_validate_path path)).
    + destruct A as [A _]. destruct (A eq_refl) as [Hne Hd].
      split; [discriminate | intros [-> | H]; congruence].
    + split; [intros _ | reflexivity].
      destruct path as [|a t]; [now left | right].
      destruct (some_part_dashed _) eqn:D; [reflexivity|].
      destruct A as [_ A]. discriminate A. split; [discriminate | reflexivity].
  - intros H. apply some_part_dashed_spec, basename_dashed_part, H.
Qed.

(** ** The derived output path *)

(** C8: the output path of a [to_marimo] request for [X.ipynb] is
    [X.mo.py], that of a [from_marimo] request for [X.mo.py] is [X.ipynb],
    each result carries the extension the other direction asks for, and the
    two derivations undo each other. *)
Theorem C8_output_path_invertible :
  forall X : string,
    output_to_marimo (X ++ ".ipynb") = X ++ ".mo.py"
    /\ output_from_marimo (X ++ ".mo.py") = X ++ ".ipynb"
    /\ PyStr.endswith (output_to_marimo (X ++ ".ipynb")) ".mo.py" = true
    /\ PyStr.endswith (output_from_marimo (X ++ ".mo.py")) ".ipynb" = true
    /\ output_from_marimo (output_to_marimo (X ++ ".ipynb")) = X ++ ".ipynb"
    /\ output_to_marimo (output_from_marimo (X ++ ".mo.py")) = X ++ ".mo.py".
Proof.
  intros X. unfold output_to_marimo, output_from_marimo.
  rewrite !drop_last6_app by reflexivity.
  repeat split; apply endswith_app.
Qed.

(** ** The handler *)
Section HostFacts.

Context {host : Host}.

Lemma eq_str_true (v : json) (s : string) :
  Py.eq_str v s = true <-> v = JStr s.
Proof.
  destruct v; cbn [Py.eq_str]; try (split; [discriminate | congruence]).
  rewrite String.eqb_eq. split; congruence.
Qed.

(** A call to [subprocess.run] appends itself to the log and leaves the
    file system the child process made. *)
Lemma run_world (c : run_call) (w : World) :
  snd (run c w) =
  {| fs := snd (subprocess_run (fs w) c);
     spawned := (spawned w ++ [c])%list |}.
Proof. unfold run. now destruct (subprocess_run (fs w) c). Qed.

Lemma to_marimo_world (s o : string) (w : World) :
  snd (_convert_to_marimo s o w) = snd (run (convert_call s o) w).
Proof.
  unfold _convert_to_marimo.
  destruct (run (convert_call s o) w) as [[rc out err | e] w'].
  - now destruct (negb (Z.eqb rc 0)).
  - now destruct (exc_kind e).
Qed.

Lemma from_marimo_world (s o : string) (w : World) :
  snd (_convert_from_marimo s o w) = snd (run (export_call s o) w).
Proof.
  unfold _convert_from_marimo.
  destruct (run (export_call s o) w) as [[rc out err | e] w'].
  - now destruct (negb (Z.eqb rc 0)).
  - now destruct (exc_kind e).
Qed.

Lemma respond_world (o : string) (r : (bool * option string) * World) :
  snd (respond o r) = snd r.
Proof. destruct r as [[[] e] w']; reflexivity. Qed.

Lemma respond_status (o : string) (r : (bool * option string) * World) :
  status (fst (respond o r)) = if fst (fst r) then 200%Z else 500%Z.
Proof. destruct r as [[[] e] w']; reflexivity. Qed.

Lemma post_cases (req : Request) (w : World) :
  (snd (post req w) = w
   /\ (status (fst (post req w)) = 400%Z
       \/ status (fst (post req w)) = 500%Z))
  \/ exists kv path root, started req w kv path root.
Proof.
  unfold started, post, post_try.
  destruct (json_body req) as [e | data].
  { left. destruct (exc_kind e); cbn; auto. }
  destruct data as [| b | z | f | s | l | kv]; try (left; cbn; now auto).
  destruct (Py.truthy (Py.dict_get kv "sourcePath")) eqn:T;
    cbn [negb]; [|left; cbn; now auto].
  destruct (Py.eq_str (Py.dict_get kv "direction") "to_marimo") eqn:D1;
    [|destruct (Py.eq_str (Py.dict_get kv "direction") "from_marimo") eqn:D2];
    cbn [orb negb]; try (left; cbn; now auto).
  all: destruct (Py.dict_get kv "sourcePath") as [| b | z | f | path | l | kv']
    eqn:SP; try (left; cbn; now auto).
  all: destruct (_validate_path path) as [valid verr] eqn:V;
    destruct valid; cbn [negb]; try (left; cbn; now auto).
  all: destruct (get_root_dir req w) as [e | root] eqn:R;
    [left; destruct (exc_kind e); cbn; now auto|].
  all: unfold convert; rewrite ?D1.
  all: destruct (os_path_isfile (fs w) (OsPath.join root path)) eqn:F;
    cbn [negb]; try (left; cbn; now auto).
  - destruct (PyStr.endswith path ".ipynb") eqn:E;
      cbn [negb]; [|left; cbn; now auto].
    right. exists kv, path, root. rewrite SP.
    apply eq_str_true in D1. unfold sent. rewrite <- surjective_pairing.
    rewrite V. repeat split; auto.
  - destruct (PyStr.endswith path ".mo.py") eqn:E;
      cbn [negb]; [|left; cbn; now auto].
    right. exists kv, path, root. rewrite SP.
    apply eq_str_true in D2. unfold sent. rewrite <- surjective_pairing.
    rewrite V. repeat split; auto.
Qed.

Lemma app_one_neq (A : Type) (l : list A) (c : A) : l <> (l ++ [c])%list.
Proof.
  intros H. apply (f_equal (@List.length A)) in H.
  rewrite List.length_app in H. cbn in H. lia.
Qed.

(** The log after a request that started the converter. *)
Lemma started_world (req : Request) (w : World)
      (kv : list (string * json)) (path root : string) :
  started req w kv path root ->
  exists c,
    snd (post req w) =
    {| fs := snd (subprocess_run (fs w) c);
       spawned := (spawned w ++ [c])%list |}
    /\ ((Py.dict_get kv "direction" = JStr "to_marimo"
         /\ c = convert_call (OsPath.join root path)
                             (OsPath.join root (output_to_marimo path)))
        \/ (Py.dict_get kv "direction" = JStr "from_marimo"
            /\ c = export_call (OsPath.join root path)
                               (OsPath.join root (output_from_marimo path)))).
Proof.
  intros (_ & _ & _ & _ & _ & [(D & _ & P) | (D & _ & P)]); rewrite P.
  - eexists. rewrite respond_world, to_marimo_world, run_world. eauto.
  - eexists. rewrite respond_world, from_marimo_world, run_world. eauto.
Qed.

(** A request whose log grew by the call [c] went all the way to the
    converter, and [c] is the call of its direction. *)
Lemma post_spawn_inv (req : Request) (w : World) (c : run_call) :
  spawned (snd (post req w)) = (spawned w ++ [c])%list ->
  exists kv path root,
    started req w kv path root
    /\ ((Py.dict_get kv "direction" = JStr "to_marimo"
         /\ c = convert_call (OsPath.join root path)
                             (OsPath.join root (output_to_marimo path))
         /\ post req w =
            respond (output_to_marimo path)
              (_convert_to_marimo (OsPath.join root path)
                 (OsPath.join root (output_to_marimo path)) w))
        \/ (Py.dict_get kv "direction" = JStr "from_marimo"
            /\ c = export_call (OsPath.join root path)
                               (OsPath.join root (output_from_marimo path))
            /\ post req w =
               respond (output_from_marimo path)
                 (_convert_from_marimo (OsPath.join root path)
                    (OsPath.join root (output_from_marimo path)) w))).
Proof.
  intros H. destruct (post_cases req w) as [[W _] | (kv & path & root & St)].
  - rewrite W in H. now apply app_one_neq in H.
  - exists kv, path, root. split; [exact St|].
    destruct (started_world _ _ _ _ _ St) as (c' & W & Hc).
    rewrite W in H. cbn [spawned] in H.
    apply List.app_inj_tail in H as [_ <-].
    destruct St as (_ & _ & _ & _ & _ & [(D & _ & P) | (D & _ & P)]);
      destruct Hc as [(D' & ->) | (D' & ->)]; try congruence; auto.
Qed.

(** What the two converters answer, by what [subprocess.run] did. *)
Lemma to_marimo_answer (s o : string) (w : World) :
  fst (_convert_to_marimo s o w) =
  match fst (subprocess_run (fs w) (convert_call s o)) with
  | CompletedProcess rc _ err =>
      if negb (Z.eqb rc 0)
      then (false,
            Some ("Conversion failed: "
                  ++ (if PyStr.truthy err then PyStr.strip err
                      else "Unknown conversion error")))
      else (true, None)
  | Raised e =>
      match exc_kind e with
      | FileNotFoundError => (false, Some msg_no_cli)
      | TimeoutExpired => (false, Some msg_convert_timeout)
      | _ => (false, Some ("Conversion error: " ++ exc_str e))
      end
  end.
Proof.
  unfold _convert_to_marimo, run.
  destruct (subprocess_run (fs w) (convert_call s o)) as [[rc out err | e] f];
    cbn [fst].
  - now destruct (negb (Z.eqb rc 0)).
  - now destruct (exc_kind e).
Qed.

Lemma from_marimo_answer (s o : string) (w : World) :
  fst (_convert_from_marimo s o w) =
  match fst (subprocess_run (fs w) (export_call s o)) with
  | CompletedProcess rc _ err =>
      if negb (Z.eqb rc 0)
      then (false,
            Some ("Export failed: "
                  ++ (if PyStr.truthy err then PyStr.strip err
                      else "Unknown export error")))
      else (true, None)
  | Raised e =>
      match exc_kind e with
      | FileNotFoundError => (false, Some msg_no_cli)
      | TimeoutExpired => (false, Some msg_export_timeout)
      | _ => (false, Some ("Export error: " ++ exc_str e))
      end
  end.
Proof.
  unfold _convert_from_marimo, run.
  destruct (subprocess_run (fs w) (export_call s o)) as [[rc out err | e] f];
    cbn [fst].
  - now destruct (negb (Z.eqb rc 0)).
  - now destruct (exc_kind e).
Qed.

Lemma respond_fst (o : string) (r : (bool * option string) * World) :
  fst (respond o r) =
  if fst (fst r)
  then {| status := 200; body := succeeded o |}
  else {| status := 500; body := failure (of_optional (snd (fst r))) |}.
Proof. destruct r as [[[] e] w']; reflexivity. Qed.


(** C1: a request whose source path has a basename beginning with a dash,
    or any part (split on the separator) beginning with a dash, is answered
    with status 400 and starts no child process: the log of child processes
    and the file system are those before the request. *)
Theorem C1_dashed_path_rejected :
  forall (req : Request) (kv : list (string * json)) (path : string)
         (w : World),
    json_body req = inr (JDict kv) ->
    Py.dict_get kv "sourcePath" = JStr path ->
    (PyStr.startswith (OsPath.basename path) "-" = true
     \/ exists part, In part (PyStr.split OsPath.sep path)
                     /\ PyStr.startswith part "-" = true) ->
    status (fst (post req w)) = 400%Z
    /\ spawned (snd (post req w)) = spawned w
    /\ snd (post req w) = w.
Proof.
  intros req kv path w Hb Hs Hd.
  assert (D : some_part_dashed (PyStr.split OsPath.sep path) = true).
  { destruct Hd as [Hd | Hd].
    - now apply basename_dashed_part.
    - now apply some_part_dashed_spec. }
  assert (V : fst (_validate_path path) = false).
  { destruct (fst (_validate_path path)) eqn:E; [|reflexivity].
    apply validate_accepts in E as [_ E]. congruence. }
  assert (T : PyStr.truthy path = true).
  { destruct path; [discriminate D | reflexivity]. }
  unfold post, post_try. rewrite Hb, Hs. cbn [Py.truthy]. rewrite T.
  cbn [negb].
  destruct (negb _); [cbn; auto|].
  destruct (_validate_path path) as [valid verr]. cbn [fst] in V. subst valid.
  cbn; auto.
Qed.

(** C3, as amended: the existence check comes first.  A [to_marimo] request
    whose validated source path does not end in [.ipynb] (and likewise a
    [from_marimo] request whose source path does not end in [.mo.py]) is
    answered with status 400 and no child process; the message is the
    extension mismatch of its direction when the resolved source path is an
    existing regular file, and "Source file not found" otherwise. *)
Theorem C3_existence_before_extension :
  forall (req : Request) (kv : list (string * json)) (path root : string)
         (w : World),
    json_body req = inr (JDict kv) ->
    Py.dict_get kv "sourcePath" = JStr path ->
    fst (_validate_path path) = true ->
    get_root_dir req w = inr root ->
    (Py.dict_get kv "direction" = JStr "to_marimo" ->
     PyStr.endswith path ".ipynb" = false ->
     post req w =
     ({| status := 400;
         body := failure (JStr (if os_path_isfile (fs w) (OsPath.join root path)
                                then msg_need_ipynb
                                else msg_not_found path)) |}, w))
    /\ (Py.dict_get kv "direction" = JStr "from_marimo" ->
        PyStr.endswith path ".mo.py" = false ->
        post req w =
        ({| status := 400;
            body := failure (JStr (if os_path_isfile (fs w)
                                        (OsPath.join root path)
                                   then msg_need_mo_py
                                   else msg_not_found path)) |}, w)).
Proof.
  intros req kv path root w Hb Hs V R.
  assert (T : PyStr.truthy path = true).
  { apply validate_accepts in V as [V _]. destruct path; [congruence | reflexivity]. }
  destruct (_validate_path path) as [valid verr] eqn:EV.
  cbn [fst] in V. subst valid.
  split; intros D E; unfold post, post_try, convert;
    rewrite Hb, Hs, D, EV, R; cbn [Py.truthy Py.eq_str]; rewrite T, E;
    destruct (os_path_isfile (fs w) (OsPath.join root path)); reflexivity.
Qed.

(** C4: when a request got as far as starting the converter and the child
    process exited with code 0, the answer is status 200 with
    [success: true], and [outputPath] is the source path of the request with
    [.ipynb] replaced by [.mo.py] for [to_marimo] and [.mo.py] by [.ipynb]
    for [from_marimo]: the path relative to the root, not the resolved
    one. *)
Theorem C4_success_response :
  forall (req : Request) (kv : list (string * json)) (path : string)
         (w : World) (c : run_call) (out err : string),
    json_body req = inr (JDict kv) ->
    Py.dict_get kv "sourcePath" = JStr path ->
    spawned (snd (post req w)) = (spawned w ++ [c])%list ->
    fst (subprocess_run (fs w) c) = CompletedProcess 0 out err ->
    status (fst (post req w)) = 200%Z
    /\ exists X,
        (Py.dict_get kv "direction" = JStr "to_marimo"
         /\ path = X ++ ".ipynb"
         /\ body (fst (post req w)) = succeeded (X ++ ".mo.py"))
        \/ (Py.dict_get kv "direction" = JStr "from_marimo"
            /\ path = X ++ ".mo.py"
            /\ body (fst (post req w)) = succeeded (X ++ ".ipynb")).
Proof.
  intros req kv path w c out err Hb Hs Hc Hr.
  destruct (post_spawn_inv _ _ _ Hc) as (kv' & path' & root & St & Hd).
  pose proof St as (Hb' & Hs' & _ & _ & _ & Hext).
  assert (kv' = kv) by congruence. subst kv'.
  assert (path' = path) by congruence. subst path'.
  destruct Hd as [(D & -> & P) | (D & -> & P)];
    destruct Hext as [(D' & E & _) | (D' & E & _)]; try congruence;
    rewrite P, respond_fst;
    rewrite ?to_marimo_answer, ?from_marimo_answer, Hr; cbn;
    (split; [reflexivity|]);
    destruct (endswith_inv _ _ E) as [X ->]; exists X;
    [left | right]; repeat split; auto;
    unfold output_to_marimo, output_from_marimo;
    now rewrite drop_last6_app.
Qed.


(** C5, as amended: when the child process exits with a code other than 0
    the answer is status 500, and the error message is the prefix of the
    direction ("Conversion failed: " or "Export failed: ") followed by the
    trimmed captured stderr, or followed by the fallback of the direction
    when the captured stderr is the empty string; so the message contains
    the trimmed stderr. *)
Theorem C5_failure_message :
  forall (req : Request) (w : World) (c : run_call) (rc : Z)
         (out err : string),
    spawned (snd (post req w)) = (spawned w ++ [c])%list ->
    fst (subprocess_run (fs w) c) = CompletedProcess rc out err ->
    rc <> 0%Z ->
    status (fst (post req w)) = 500%Z
    /\ (exists prefix fallback,
          ((prefix = "Conversion failed: "
            /\ fallback = "Unknown conversion error"
            /\ exists s o, c = convert_call s o)
           \/ (prefix = "Export failed: "
               /\ fallback = "Unknown export error"
               /\ exists s o, c = export_call s o))
          /\ body (fst (post req w)) =
             failure (JStr (prefix ++ (if PyStr.truthy err
                                       then PyStr.strip err
                                       else fallback))))
    /\ (PyStr.truthy err = true ->
        exists msg,
          body (fst (post req w)) = failure (JStr msg)
          /\ PyStr.contains msg (PyStr.strip err) = true).
Proof.
  intros req w c rc out err Hc Hr Hrc.
  apply Z.eqb_neq in Hrc.
  destruct (post_spawn_inv _ _ _ Hc) as (kv & path & root & _ & Hd).
  destruct Hd as [(_ & -> & P) | (_ & -> & P)];
    rewrite P, respond_fst;
    rewrite ?to_marimo_answer, ?from_marimo_answer, Hr, Hrc;
    cbn [negb fst snd status body of_optional];
    (split; [reflexivity|]); split.
  - do 2 eexists. split; [left; eauto | reflexivity].
  - intros ->. eexists. split; [reflexivity | apply contains_app].
  - do 2 eexists. split; [right; eauto | reflexivity].
  - intros ->. eexists. split; [reflexivity | apply contains_app].
Qed.

(** A child process is started with a timeout of 30 seconds, and when
    [subprocess.run] leaves with [TimeoutExpired] the answer is status 500
    with the fixed message of the direction. *)
Lemma timeout_answer :
  forall (req : Request) (w : World) (c : run_call),
    spawned (snd (post req w)) = (spawned w ++ [c])%list ->
    timeout c = Some 30%Z
    /\ forall e : exception,
        fst (subprocess_run (fs w) c) = Raised e ->
        exc_kind e = TimeoutExpired ->
        status (fst (post req w)) = 500%Z
        /\ (((exists s o, c = convert_call s o)
             /\ body (fst (post req w)) = failure (JStr msg_convert_timeout))
            \/ ((exists s o, c = export_call s o)
                /\ body (fst (post req w)) = failure (JStr msg_export_timeout))).
Proof.
  intros req w c Hc.
  destruct (post_spawn_inv _ _ _ Hc) as (kv & path & root & _ & Hd).
  destruct Hd as [(_ & -> & P) | (_ & -> & P)];
    (split; [reflexivity|]); intros e Hr Hk;
    rewrite P, respond_fst;
    rewrite ?to_marimo_answer, ?from_marimo_answer, Hr, Hk;
    cbn [fst snd status body of_optional];
    (split; [reflexivity|]); [left | right]; eauto.
Qed.

(** C7, on the code: the [except json.JSONDecodeError] clause answers 400
    "Invalid JSON body", but [get_json_body] never raises that class.  An
    empty body makes it return [None], and [data.get] then fails; a body
    that is not JSON makes it raise [HTTPError].  Both leave through
    [except Exception], so the answer is status 500. *)
Theorem C7_invalid_body_gets_500 :
  forall (decode : string -> exception + string)
         (json_loads : string -> option json)
         (cm : option ContentsManager) (w : World),
    post {| json_body := JupyterServer.get_json_body decode json_loads "";
            contents_manager := cm |} w
    = ({| status := 500;
          body := failure (JStr "'NoneType' object has no attribute 'get'") |},
       w)
    /\ (forall msg : string,
          post {| json_body := inl (Exc HTTPError msg);
                  contents_manager := cm |} w
          = ({| status := 500; body := failure (JStr msg) |}, w))
    /\ (forall msg : string,
          post {| json_body := inl (Exc JSONDecodeError msg);
                  contents_manager := cm |} w
          = ({| status := 400; body := failure (JStr msg_invalid_json) |}, w)).
Proof. intros. repeat split. Qed.

(** The answer depends on the state of the host only through what
    [os.path.isfile], [os.getcwd] and [subprocess.run] return. *)
Lemma convert_reads_only (direction : json) (root path : string)
      (w1 w2 : World) :
  (forall p, os_path_isfile (fs w1) p = os_path_isfile (fs w2) p) ->
  (forall c, fst (subprocess_run (fs w1) c) = fst (subprocess_run (fs w2) c)) ->
  fst (convert direction root path w1) = fst (convert direction root path w2).
Proof.
  intros Hfile Hrun. unfold convert. rewrite Hfile.
  destruct (negb (os_path_isfile (fs w2) (OsPath.join root path)));
    [reflexivity|].
  destruct (Py.eq_str direction "to_marimo");
    (destruct (negb (PyStr.endswith path _)); [reflexivity|]);
    unfold sent; cbn [fst]; rewrite !respond_fst;
    rewrite ?to_marimo_answer, ?from_marimo_answer, Hrun; reflexivity.
Qed.

Lemma post_reads_only (req : Request) (w1 w2 : World) :
  os_getcwd (fs w1) = os_getcwd (fs w2) ->
  (forall p, os_path_isfile (fs w1) p = os_path_isfile (fs w2) p) ->
  (forall c, fst (subprocess_run (fs w1) c) = fst (subprocess_run (fs w2) c)) ->
  fst (post req w1) = fst (post req w2).
Proof.
  intros Hcwd Hfile Hrun.
  assert (R : get_root_dir req w1 = get_root_dir req w2).
  { unfold get_root_dir. now rewrite Hcwd. }
  pose proof (fun d r p => convert_reads_only d r p w1 w2 Hfile Hrun) as C.
  unfold post, post_try.
  destruct (json_body req) as [e | data]; [now destruct (exc_kind e)|].
  destruct data; try reflexivity.
  destruct (negb (Py.truthy _)); [reflexivity|].
  destruct (negb (_ || _)); [reflexivity|].
  destruct (Py.dict_get kv "sourcePath"); try reflexivity.
  destruct (_validate_path s) as [valid verr].
  destruct (negb valid); [reflexivity|].
  rewrite R. destruct (get_root_dir req w2) as [e | root];
    [now destruct (exc_kind e)|].
  specialize (C (Py.dict_get kv "direction") root s).
  destruct (convert _ root s w1) as [[e1 | r1] x1],
           (convert _ root s w2) as [[e2 | r2] x2];
    cbn [fst] in C; inversion C; subst; try reflexivity.
  now destruct (exc_kind e2).
Qed.

(** C10: the handler leaves the file system as it found it, unless it
    started the converter, and then the file system is the one that single
    child process left; a request answered with status 400 started no child
    process and leaves the file system unchanged; and the answer depends on
    the file system only through what [os.path.isfile] (and [os.getcwd]
    and the child process) return. *)
Theorem C10_file_system_frame :
  forall (req : Request) (w : World),
    ((snd (post req w) = w)
     \/ exists c,
         snd (post req w) =
         {| fs := snd (subprocess_run (fs w) c);
            spawned := (spawned w ++ [c])%list |})
    /\ (status (fst (post req w)) = 400%Z -> snd (post req w) = w)
    /\ (forall w' : World,
          os_getcwd (fs w) = os_getcwd (fs w') ->
          (forall p, os_path_isfile (fs w) p = os_path_isfile (fs w') p) ->
          (forall c, fst (subprocess_run (fs w) c)
                     = fst (subprocess_run (fs w') c)) ->
          fst (post req w) = fst (post req w')).
Proof.
  intros req w. split; [|split; [|apply post_reads_only]].
  - destruct (post_cases req w) as [[W _] | (kv & path & root & St)].
    + now left.
    + pose proof (started_world _ _ _ _ _ St) as (c & W & _).
      right. now exists c.
  - destruct (post_cases req w) as [[W _] | (kv & path & root & St)].
    + now intros _.
    + destruct St as (_ & _ & _ & _ & _ & [(_ & _ & P) | (_ & _ & P)]);
        rewrite P, respond_status; destruct (fst (fst _)); discriminate.
Qed.

End HostFacts.

(** ** Containment under the root directory *)
Section PathFacts.

Lemma append_assoc (x y z : string) : (x ++ y) ++ z = x ++ (y ++ z).
Proof. induction x as [|a x IH]; cbn; congruence. Qed.

Lemma split_app_sep (c : ascii) (x y : string) :
  PyStr.split c (x ++ String c y) = (PyStr.split c x ++ PyStr.split c y)%list.
Proof.
  induction x as [|d x IH]; cbn [append PyStr.split].
  - now rewrite Ascii.eqb_refl.
  - rewrite IH. destruct (Ascii.eqb d c); [reflexivity|].
    pose proof (split_not_nil c x) as N.
    destruct (PyStr.split c x); [congruence | reflexivity].
Qed.

(** Appending text without a separator extends the last part. *)
Lemma split_app_nosep (c : ascii) (x y : string) :
  PyStr.rfind_succ c y = 0 ->
  PyStr.split c (x ++ y) =
  (removelast (PyStr.split c x)
   ++ [(last (PyStr.split c x) "" ++ y)%string])%list.
Proof.
  intros Hy. induction x as [|d x IH]; cbn [append PyStr.split].
  - now rewrite (split_single _ _ Hy).
  - rewrite IH. pose proof (split_not_nil c x) as N.
    destruct (PyStr.split c x) as [|h [|h2 r]]; [congruence | |];
      destruct (Ascii.eqb d c); reflexivity.
Qed.

(** Without [".."] the resolution only filters. *)
Lemma fold_step_plain (absolute : bool) (parts kept : list string) :
  forallb (fun part => negb (String.eqb part "..")) parts = true ->
  fold_left (Contain.step absolute) parts kept =
  (rev (filter Contain.proper parts) ++ kept)%list.
Proof.
  revert kept. induction parts as [|p parts IH]; intros kept H; [reflexivity|].
  cbn [forallb] in H. apply andb_prop in H as [Hp H].
  cbn [fold_left filter]. rewrite (IH _ H).
  unfold Contain.step, Contain.proper.
  destruct (String.eqb p "" || String.eqb p "."); cbn [negb]; [reflexivity|].
  apply negb_true_iff in Hp. rewrite Hp. cbn [rev].
  now rewrite <- List.app_assoc.
Qed.

Lemma is_prefix_app (xs ys : list string) :
  Contain.is_prefix xs (xs ++ ys) = true.
Proof.
  induction xs as [|x xs IH]; [reflexivity|].
  cbn. now rewrite String.eqb_refl, IH.
Qed.

Lemma startswith_app (x y p : string) :
  x <> "" -> String.length p = 1 ->
  PyStr.startswith (x ++ y) p = PyStr.startswith x p.
Proof.
  intros Hx Hp. destruct x as [|a x]; [congruence|].
  destruct p as [|b [|b' p]]; try discriminate.
  unfold PyStr.startswith. cbn.
  destruct (ascii_dec b a); [now destruct x, y | reflexivity].
Qed.

Lemma endswith_sep_inv (s : string) :
  PyStr.endswith s "/" = true -> exists r, s = r ++ "/".
Proof. apply endswith_inv. Qed.

(** The parts of [os.path.join root p], for a relative [p] and a root that
    is not empty: those of the root (less a closing empty part) and then
    those of [p]. *)
Lemma split_join (root p : string) :
  root <> "" -> PyStr.startswith p "/" = false ->
  exists parts,
    PyStr.split OsPath.sep (OsPath.join root p)
    = (parts ++ PyStr.split OsPath.sep p)%list
    /\ (PyStr.split OsPath.sep root = parts
        \/ PyStr.split OsPath.sep root = (parts ++ [""])%list).
Proof.
  intros Hr Hp. unfold OsPath.join. rewrite Hp.
  destruct root as [|a root]; [congruence|]. cbn [PyStr.truthy negb orb].
  destruct (PyStr.endswith (String a root) "/") eqn:E.
  - destruct (endswith_sep_inv _ E) as [r ->].
    exists (PyStr.split OsPath.sep r).
    rewrite append_assoc. cbn [append].
    rewrite !split_app_sep. auto.
  - exists (PyStr.split OsPath.sep (String a root)).
    cbn [append]. change (String a (root ++ String "/" p))
      with (String a root ++ String "/" p).
    rewrite split_app_sep. auto.
Qed.

Lemma join_absolute (root p : string) :
  root <> "" -> PyStr.startswith p "/" = false ->
  Contain.is_absolute (OsPath.join root p) = Contain.is_absolute root.
Proof.
  intros Hr Hp. unfold OsPath.join, Contain.is_absolute. rewrite Hp.
  destruct (negb (PyStr.truthy root) || PyStr.endswith root "/");
    now apply startswith_app.
Qed.

(** A relative path without [".."] stays under the root it is joined to. *)
Lemma join_contained (root p : string) :
  PyStr.startswith p "/" = false ->
  Contain.no_dotdot p = true ->
  Contain.contained_under root (OsPath.join root p) = true.
Proof.
  intros Hp Hd. unfold Contain.contained_under.
  destruct root as [|a root].
  - unfold OsPath.join. rewrite Hp. cbn [PyStr.truthy negb orb append].
    unfold Contain.is_absolute at 1 2. rewrite Hp. reflexivity.
  - assert (Hr : String a root <> "") by discriminate.
    rewrite (join_absolute _ _ Hr Hp), Bool.eqb_reflx. cbn [andb].
    unfold Contain.resolve. rewrite (join_absolute _ _ Hr Hp).
    destruct (split_join _ _ Hr Hp) as (parts & -> & [-> | ->]);
      rewrite !fold_left_app, (fold_step_plain _ _ _ Hd), rev_app_distr,
        rev_involutive; cbn [fold_left];
      try (unfold Contain.step at 1; cbn [String.eqb orb]);
      apply is_prefix_app.
Qed.

Lemma app_not_dotdot (l y : string) :
  2 < String.length y -> String.eqb (l ++ y) ".." = false.
Proof.
  intros H. apply String.eqb_neq. intros E.
  apply (f_equal String.length) in E. rewrite length_app in E. cbn in E. lia.
Qed.

(** Swapping the extension keeps a path relative and free of [".."]. *)
Lemma swap_keeps_shape (X e e' : string) :
  String.length e = 6 -> String.length e' = 6 ->
  PyStr.rfind_succ OsPath.sep e = 0 -> PyStr.rfind_succ OsPath.sep e' = 0 ->
  PyStr.startswith e "/" = false -> PyStr.startswith e' "/" = false ->
  PyStr.startswith (X ++ e) "/" = false ->
  Contain.no_dotdot (X ++ e) = true ->
  PyStr.startswith (X ++ e') "/" = false
  /\ Contain.no_dotdot (X ++ e') = true.
Proof.
  intros Le Le' Se Se' Re Re' Hrel Hd. split.
  - destruct X as [|a X]; [exact Re'|].
    rewrite startswith_app in * by (discriminate || reflexivity). exact Hrel.
  - unfold Contain.no_dotdot in *.
    rewrite (split_app_nosep _ _ _ Se) in Hd.
    rewrite (split_app_nosep _ _ _ Se').
    rewrite forallb_app in *. apply andb_prop in Hd as [Hd _].
    rewrite Hd. cbn. rewrite app_not_dotdot by lia. reflexivity.
Qed.

End PathFacts.

Section RootContainment.

Context {host : Host}.

(** C2, as amended: for a request that passes validation and whose source
    path is relative (does not begin with the separator) and has no part
    [".."], the resolved source path lies under the root directory, and so
    do the source and output paths given to any child process the request
    starts. *)
Theorem C2_relative_paths_contained :
  forall (req : Request) (kv : list (string * json)) (path root : string)
         (w : World),
    json_body req = inr (JDict kv) ->
    Py.dict_get kv "sourcePath" = JStr path ->
    fst (_validate_path path) = true ->
    get_root_dir req w = inr root ->
    PyStr.startswith path "/" = false ->
    Contain.no_dotdot path = true ->
    Contain.contained_under root (OsPath.join root path) = true
    /\ forall c : run_call,
        spawned (snd (post req w)) = (spawned w ++ [c])%list ->
        exists full_source_path full_output_path,
          (c = convert_call full_source_path full_output_path
           \/ c = export_call full_source_path full_output_path)
          /\ full_source_path = OsPath.join root path
          /\ Contain.contained_under root full_source_path = true
          /\ Contain.contained_under root full_output_path = true.
Proof.
  intros req kv path root w Hb Hs V R Hrel Hd.
  pose proof (join_contained root path Hrel Hd) as Hsrc.
  split; [exact Hsrc|]. intros c Hc.
  destruct (post_spawn_inv _ _ _ Hc) as (kv' & path' & root' & St & Hcall).
  pose proof St as (Hb' & Hs' & _ & R' & _ & Hext).
  assert (kv' = kv) by congruence. subst kv'.
  assert (path' = path) by congruence. subst path'.
  assert (root' = root) by congruence. subst root'.
  destruct Hcall as [(D & -> & _) | (D & -> & _)];
    destruct Hext as [(D' & E & _) | (D' & E & _)]; try congruence;
    destruct (endswith_inv _ _ E) as [X ->];
    do 2 eexists; (split; [eauto|]); (split; [reflexivity|]);
    (split; [exact Hsrc|]);
    unfold output_to_marimo, output_from_marimo;
    rewrite drop_last6_app by reflexivity.
  - destruct (swap_keeps_shape X ".ipynb" ".mo.py") as [A B]; auto.
    now apply join_contained.
  - destruct (swap_keeps_shape X ".mo.py" ".ipynb") as [A B]; auto.
    now apply join_contained.
Qed.

End RootContainment.


(** * Further properties of the handler *)

(** ** The checks on the request body *)
Section BodyChecks.

Context {host : Host}.

Lemma dict_get_absent (kv : list (string * json)) (k : string) :
  existsb (fun p => String.eqb (fst p) k) kv = false ->
  Py.dict_get kv k = JNull.
Proof.
  induction kv as [|[k' v] kv IH]; [reflexivity|].
  cbn [existsb fst Py.dict_get]. intros H.
  apply orb_false_iff in H as [Hk Hr]. now rewrite Hr, Hk.
Qed.

Lemma eq_str_false (v : json) (s : string) :
  v <> JStr s -> Py.eq_str v s = false.
Proof.
  intros H. destruct (Py.eq_str v s) eqn:E; [|reflexivity].
  now apply eq_str_true in E.
Qed.

(** X1: a body without the key [sourcePath], or with a value there that
    Python takes as false ([null], [""], [0], [false], [[]], [{}]), is
    answered 400 "sourcePath is required" whatever the direction says; no
    child process is started. *)
Theorem X1_source_path_required :
  forall (req : Request) (kv : list (string * json)) (w : World),
    json_body req = inr (JDict kv) ->
    (existsb (fun p => String.eqb (fst p) "sourcePath") kv = false
     \/ Py.truthy (Py.dict_get kv "sourcePath") = false) ->
    post req w =
    ({| status := 400; body := failure (JStr msg_source_required) |}, w).
Proof.
  intros req kv w Hb H.
  assert (T : Py.truthy (Py.dict_get kv "sourcePath") = false).
  { destruct H as [H | H]; [|exact H]. now rewrite (dict_get_absent _ _ H). }
  unfold post, post_try. now rewrite Hb, T.
Qed.

(** X2: with a source path present, a direction that is neither the string
    ["to_marimo"] nor ["from_marimo"] (or is missing) is answered 400 with
    the direction message, before the source path is looked at: also when
    the source path is no string or begins with a dash. *)
Theorem X2_direction_checked_before_path :
  forall (req : Request) (kv : list (string * json)) (w : World),
    json_body req = inr (JDict kv) ->
    Py.truthy (Py.dict_get kv "sourcePath") = true ->
    Py.dict_get kv "direction" <> JStr "to_marimo" ->
    Py.dict_get kv "direction" <> JStr "from_marimo" ->
    post req w =
    ({| status := 400; body := failure (JStr msg_direction) |}, w).
Proof.
  intros req kv w Hb T D1 D2. unfold post, post_try.
  now rewrite Hb, T, (eq_str_false _ _ D1), (eq_str_false _ _ D2).
Qed.

(** X3: a body that is valid JSON but no object (a list, a string, a
    number, [true], [null]) is answered 500 with the text of the
    [AttributeError] of [data.get], not 400. *)
Theorem X3_non_object_body :
  forall (req : Request) (data : json) (w : World),
    json_body req = inr data ->
    (forall kv, data <> JDict kv) ->
    post req w =
    ({| status := 500;
        body := failure (JStr ("'" ++ Py.type_name data
                               ++ "' object has no attribute 'get'")) |}, w).
Proof.
  intros req data w Hb H. unfold post, post_try. rewrite Hb.
  destruct data; try reflexivity. now destruct (H kv).
Qed.

(** X4: with a valid direction, a source path that is present and true but
    no string (a number, [true], a list, an object) is answered 500 with
    the text of the [TypeError] of [os.path.basename], not 400; no child
    process is started. *)
Theorem X4_non_string_source_path :
  forall (req : Request) (kv : list (string * json)) (w : World),
    json_body req = inr (JDict kv) ->
    Py.truthy (Py.dict_get kv "sourcePath") = true ->
    (forall s, Py.dict_get kv "sourcePath" <> JStr s) ->
    (Py.dict_get kv "direction" = JStr "to_marimo"
     \/ Py.dict_get kv "direction" = JStr "from_marimo") ->
    post req w =
    ({| status := 500;
        body := failure
                  (JStr ("expected str, bytes or os.PathLike object, not "
                         ++ Py.type_name (Py.dict_get kv "sourcePath"))) |},
     w).
Proof.
  intros req kv w Hb T H D. unfold post, post_try. rewrite Hb, T.
  assert (E : Py.eq_str (Py.dict_get kv "direction") "to_marimo"
              || Py.eq_str (Py.dict_get kv "direction") "from_marimo" = true).
  { destruct D as [-> | ->]; reflexivity. }
  rewrite E. cbn [negb].
  destruct (Py.dict_get kv "sourcePath"); try reflexivity.
  now destruct (H s).
Qed.

(** What [post] is once the body has passed every check before the root
    directory is looked up. *)
Lemma post_try_checked (req : Request) (kv : list (string * json))
      (path root : string) (w : World) :
  json_body req = inr (JDict kv) ->
  Py.dict_get kv "sourcePath" = JStr path ->
  fst (_validate_path path) = true ->
  (Py.dict_get kv "direction" = JStr "to_marimo"
   \/ Py.dict_get kv "direction" = JStr "from_marimo") ->
  get_root_dir req w = inr root ->
  post_try req w = convert (Py.dict_get kv "direction") root path w.
Proof.
  intros Hb Hs V D R. unfold post_try. rewrite Hb, Hs.
  assert (T : Py.truthy (JStr path) = true).
  { apply validate_accepts in V as [V _]. destruct path; [congruence|easy]. }
  rewrite T.
  assert (E : Py.eq_str (Py.dict_get kv "direction") "to_marimo"
              || Py.eq_str (Py.dict_get kv "direction") "from_marimo" = true).
  { destruct D as [-> | ->]; reflexivity. }
  rewrite E. cbn [negb].
  destruct (_validate_path path) as [valid verr]. cbn [fst] in V. subst valid.
  cbn [negb]. now rewrite R.
Qed.

(** X5: a request that passes the checks on its body, but whose resolved
    source path is no existing regular file, is answered 400 "Source file
    not found: " followed by the source path as the request gave it (not
    the resolved one), whatever its extension; no child process is
    started. *)
Theorem X5_source_file_not_found :
  forall (req : Request) (kv : list (string * json)) (path root : string)
         (w : World),
    json_body req = inr (JDict kv) ->
    Py.dict_get kv "sourcePath" = JStr path ->
    fst (_validate_path path) = true ->
    (Py.dict_get kv "direction" = JStr "to_marimo"
     \/ Py.dict_get kv "direction" = JStr "from_marimo") ->
    get_root_dir req w = inr root ->
    os_path_isfile (fs w) (OsPath.join root path) = false ->
    post req w =
    ({| status := 400;
        body := failure (JStr ("Source file not found: " ++ path)) |}, w).
Proof.
  intros req kv path root w Hb Hs V D R F. unfold post.
  rewrite (post_try_checked _ _ _ _ _ Hb Hs V D R).
  unfold convert. now rewrite F.
Qed.

End BodyChecks.

(** ** The answers *)
Section Answers.

Context {host : Host}.

(** A converter that fails always says why. *)
Lemma to_marimo_failure (s o : string) (w : World) :
  fst (fst (_convert_to_marimo s o w)) = false ->
  exists msg, snd (fst (_convert_to_marimo s o w)) = Some msg.
Proof.
  rewrite to_marimo_answer.
  destruct (fst (subprocess_run (fs w) (convert_call s o))) as [rc out err | e].
  - destruct (negb (Z.eqb rc 0)); cbn; [eauto | discriminate].
  - destruct (exc_kind e); cbn; eauto.
Qed.

Lemma from_marimo_failure (s o : string) (w : World) :
  fst (fst (_convert_from_marimo s o w)) = false ->
  exists msg, snd (fst (_convert_from_marimo s o w)) = Some msg.
Proof.
  rewrite from_marimo_answer.
  destruct (fst (subprocess_run (fs w) (export_call s o))) as [rc out err | e].
  - destruct (negb (Z.eqb rc 0)); cbn; [eauto | discriminate].
  - destruct (exc_kind e); cbn; eauto.
Qed.

Lemma respond_shape (o : string) (r : (bool * option string) * World) :
  (fst (fst r) = false -> exists msg, snd (fst r) = Some msg) ->
  (fst (respond o r) = {| status := 200; body := succeeded o |}
   \/ exists msg,
       fst (respond o r) = {| status := 500; body := failure (JStr msg) |}).
Proof.
  destruct r as [[[] e] w']; cbn; [now left|].
  intros H. destruct (H eq_refl) as [msg ->]. right. now exists msg.
Qed.

(** X6: every request is answered with status 200, 400 or 500 and a body
    of one of two shapes: with status 200 it is [success: true] with an
    [outputPath]; with status 400 or 500 it is [success: false] with an
    [error] that is a string, and no [outputPath]. *)
Theorem X6_answer_shape :
  forall (req : Request) (w : World),
    (exists output_path,
        fst (post req w) = {| status := 200; body := succeeded output_path |})
    \/ (exists msg,
           fst (post req w) = {| status := 400; body := failure (JStr msg) |})
    \/ (exists msg,
           fst (post req w) = {| status := 500; body := failure (JStr msg) |}).
Proof.
  intros req w. unfold post, post_try.
  destruct (json_body req) as [e | data].
  { destruct (exc_kind e); cbn; eauto. }
  destruct data; try (cbn; now eauto).
  destruct (negb (Py.truthy _)); [cbn; now eauto|].
  destruct (negb (_ || _)); [cbn; now eauto|].
  destruct (Py.dict_get kv "sourcePath") as [| | | | path | |];
    try (cbn; now eauto).
  pose proof (validate_message path) as [_ M].
  destruct (_validate_path path) as [[] verr]; cbn [negb fst snd] in *.
  - destruct (get_root_dir req w) as [e | root].
    { destruct (exc_kind e); cbn; eauto. }
    unfold convert.
    destruct (negb (os_path_isfile _ _)); [cbn; now eauto|].
    destruct (Py.eq_str _ _);
      (destruct (negb (PyStr.endswith path _)); [cbn; now eauto|]);
      unfold sent; cbn [fst snd].
    + destruct (respond_shape (output_to_marimo path)
                  (_convert_to_marimo (OsPath.join root path)
                     (OsPath.join root (output_to_marimo path)) w)
                  (to_marimo_failure _ _ _)) as [-> | [msg ->]]; eauto.
    + destruct (respond_shape (output_from_marimo path)
                  (_convert_from_marimo (OsPath.join root path)
                     (OsPath.join root (output_from_marimo path)) w)
                  (from_marimo_failure _ _ _)) as [-> | [msg ->]]; eauto.
  - destruct (M eq_refl) as [m ->]. cbn. eauto.
Qed.

(** X7: the answer has status 200 exactly when the request started a child
    process and that process exited with code 0. *)
Theorem X7_success_iff_exit_zero :
  forall (req : Request) (w : World),
    status (fst (post req w)) = 200%Z <->
    exists c out err,
      spawned (snd (post req w)) = (spawned w ++ [c])%list
      /\ fst (subprocess_run (fs w) c) = CompletedProcess 0 out err.
Proof.
  intros req w. split.
  - intros H.
    destruct (post_cases req w) as [[_ [S | S]] | (kv & path & root & St)];
      try congruence.
    destruct (started_world _ _ _ _ _ St) as (c & W & Hc).
    exists c. rewrite W. cbn [spawned].
    destruct St as (_ & _ & _ & _ & _ & [(D & _ & P) | (D & _ & P)]);
      destruct Hc as [(D' & ->) | (D' & ->)]; try congruence;
      rewrite P, respond_status in H;
      rewrite ?to_marimo_answer, ?from_marimo_answer in H;
      destruct (fst (subprocess_run _ _)) as [rc out err | e];
      try (destruct (exc_kind e); discriminate);
      destruct (Z.eqb rc 0) eqn:Z; try discriminate;
      apply Z.eqb_eq in Z; subst rc; eauto.
  - intros (c & out & err & Hc & Hr).
    destruct (post_spawn_inv _ _ _ Hc) as (kv & path & root & _ & Hd).
    destruct Hd as [(_ & -> & P) | (_ & -> & P)];
      rewrite P, respond_status;
      rewrite ?to_marimo_answer, ?from_marimo_answer, Hr; reflexivity.
Qed.

(** X8: when [subprocess.run] raises, the answer is status 500.  The
    message is "marimo CLI not found. Please ensure marimo is installed."
    for [FileNotFoundError] in both directions, and for an exception that
    is neither that nor [TimeoutExpired] it is "Conversion error: " or
    "Export error: ", by direction, followed by the text of the
    exception. *)
Theorem X8_converter_exceptions :
  forall (req : Request) (w : World) (c : run_call) (e : exception),
    spawned (snd (post req w)) = (spawned w ++ [c])%list ->
    fst (subprocess_run (fs w) c) = Raised e ->
    status (fst (post req w)) = 500%Z
    /\ (exc_kind e = FileNotFoundError ->
        body (fst (post req w)) = failure (JStr msg_no_cli))
    /\ (exc_kind e <> FileNotFoundError ->
        exc_kind e <> TimeoutExpired ->
        ((exists s o, c = convert_call s o)
         /\ body (fst (post req w))
            = failure (JStr ("Conversion error: " ++ exc_str e)))
        \/ ((exists s o, c = export_call s o)
            /\ body (fst (post req w))
               = failure (JStr ("Export error: " ++ exc_str e)))).
Proof.
  intros req w c e Hc Hr.
  destruct (post_spawn_inv _ _ _ Hc) as (kv & path & root & _ & Hd).
  destruct Hd as [(_ & -> & P) | (_ & -> & P)];
    rewrite P, respond_fst;
    rewrite ?to_marimo_answer, ?from_marimo_answer, Hr;
    (split; [now destruct (exc_kind e)|]);
    (split; [now intros -> |]); intros N1 N2;
    [left | right]; (split; [eauto|]);
    destruct (exc_kind e); congruence || reflexivity.
Qed.

Lemma rstrip_blank (s : string) :
  forallb PyStr.isspace (list_ascii_of_string s) = true ->
  PyStr.rstrip s = "".
Proof.
  induction s as [|a s IH]; [reflexivity|].
  cbn [list_ascii_of_string forallb PyStr.rstrip]. intros H.
  apply andb_prop in H as [Ha Hs]. now rewrite (IH Hs), Ha.
Qed.

Lemma lstrip_blank (s : string) :
  forallb PyStr.isspace (list_ascii_of_string s) = true ->
  PyStr.lstrip s = "".
Proof.
  induction s as [|a s IH]; [reflexivity|].
  cbn [list_ascii_of_string forallb PyStr.lstrip]. intros H.
  apply andb_prop in H as [Ha Hs]. now rewrite Ha, (IH Hs).
Qed.

(** X9: the fallback text is used for an empty stderr only.  When the
    child process exits with a code other than 0 and its stderr is not
    empty but all whitespace, the error message is the bare prefix of the
    direction, "Conversion failed: " or "Export failed: ", with nothing
    after it. *)
Theorem X9_blank_stderr :
  forall (req : Request) (w : World) (c : run_call) (rc : Z)
         (out err : string),
    spawned (snd (post req w)) = (spawned w ++ [c])%list ->
    fst (subprocess_run (fs w) c) = CompletedProcess rc out err ->
    rc <> 0%Z ->
    err <> "" ->
    forallb PyStr.isspace (list_ascii_of_string err) = true ->
    ((exists s o, c = convert_call s o)
     /\ fst (post req w)
        = {| status := 500; body := failure (JStr "Conversion failed: ") |})
    \/ ((exists s o, c = export_call s o)
        /\ fst (post req w)
           = {| status := 500; body := failure (JStr "Export failed: ") |}).
Proof.
  intros req w c rc out err Hc Hr Hrc Hne Hsp.
  apply Z.eqb_neq in Hrc.
  assert (T : PyStr.truthy err = true) by (destruct err; [congruence | easy]).
  assert (S : PyStr.strip err = "").
  { unfold PyStr.strip. now rewrite (lstrip_blank _ Hsp). }
  destruct (post_spawn_inv _ _ _ Hc) as (kv & path & root & _ & Hd).
  destruct Hd as [(_ & -> & P) | (_ & -> & P)];
    rewrite P, respond_fst;
    rewrite ?to_marimo_answer, ?from_marimo_answer, Hr, Hrc, T, S;
    [left | right]; (split; [eauto | reflexivity]).
Qed.

(** X10: the paths given to the child process are resolved against the
    [root_dir] of the contents manager when there is a contents manager
    with that attribute, and against [os.getcwd()] otherwise. *)
Theorem X10_root_directory_choice :
  forall (req : Request) (kv : list (string * json)) (path : string)
         (w : World) (c : run_call),
    json_body req = inr (JDict kv) ->
    Py.dict_get kv "sourcePath" = JStr path ->
    spawned (snd (post req w)) = (spawned w ++ [c])%list ->
    exists root,
      ((exists cm, contents_manager req = Some cm /\ root_dir cm = Some root)
       \/ ((contents_manager req = None
            \/ exists cm, contents_manager req = Some cm /\ root_dir cm = None)
           /\ os_getcwd (fs w) = inr root))
      /\ (c = convert_call (OsPath.join root path)
                           (OsPath.join root (output_to_marimo path))
          \/ c = export_call (OsPath.join root path)
                             (OsPath.join root (output_from_marimo path))).
Proof.
  intros req kv path w c Hb Hs Hc.
  destruct (post_spawn_inv _ _ _ Hc) as (kv' & path' & root & St & Hd).
  destruct St as (Hb' & Hs' & _ & R & _).
  assert (kv' = kv) by congruence. subst kv'.
  assert (path' = path) by congruence. subst path'.
  exists root. split.
  - unfold get_root_dir in R.
    destruct (contents_manager req) as [cm|]; [|right; now auto].
    destruct (root_dir cm) as [d|] eqn:Ed.
    + left. exists cm. split; [reflexivity | congruence].
    + right. split; [right; now exists cm | exact R].
  - destruct Hd as [(_ & -> & _) | (_ & -> & _)]; auto.
Qed.

End Answers.

(** ** The paths given to the child process *)
Section ChildPaths.

Context {host : Host}.

Lemma some_part_dashed_app (xs ys : list string) :
  some_part_dashed (xs ++ ys)
  = some_part_dashed xs || some_part_dashed ys.
Proof.
  induction xs as [|x xs IH]; [reflexivity|].
  cbn [app some_part_dashed]. now destruct (PyStr.startswith x "-").
Qed.

(** A path that begins with a dash has a first part that does. *)
Lemma leading_dash_part (p : string) :
  PyStr.startswith p "-" = true ->
  some_part_dashed (PyStr.split OsPath.sep p) = true.
Proof.
  destruct p as [|a p]; [discriminate|].
  unfold PyStr.startswith. cbn [String.prefix].
  destruct (ascii_dec "-" a) as [<- | ]; [|discriminate]. intros _.
  cbn [PyStr.split]. cbn [Ascii.eqb Bool.eqb OsPath.sep].
  pose proof (split_not_nil OsPath.sep p) as N.
  destruct (PyStr.split OsPath.sep p); [congruence|].
  cbn [some_part_dashed]. unfold PyStr.startswith. cbn [String.prefix].
  destruct (ascii_dec "-" "-"); [now destruct s | congruence].
Qed.

Lemma validated_no_leading_dash (p : string) :
  fst (_validate_path p) = true -> PyStr.startswith p "-" = false.
Proof.
  intros V. apply validate_accepts in V as [_ V].
  destruct (PyStr.startswith p "-") eqn:E; [|reflexivity].
  apply leading_dash_part in E. congruence.
Qed.

(** Joining to a root that does not begin with a dash gives a path that
    does not begin with a dash either. *)
Lemma join_no_leading_dash (root p : string) :
  PyStr.startswith root "-" = false ->
  PyStr.startswith p "-" = false ->
  PyStr.startswith (OsPath.join root p) "-" = false.
Proof.
  intros Hr Hp. unfold OsPath.join.
  destruct (PyStr.startswith p "/"); [exact Hp|].
  destruct root as [|a root].
  - cbn [PyStr.truthy negb orb append]. exact Hp.
  - destruct (negb _ || _);
      rewrite startswith_app by (discriminate || reflexivity); exact Hr.
Qed.

(** Swapping a six-character extension that does not begin with a dash for
    another keeps the first character of every part. *)
Lemma swap_keeps_validity (X e e' : string) :
  PyStr.rfind_succ OsPath.sep e = 0 -> PyStr.rfind_succ OsPath.sep e' = 0 ->
  e <> "" -> e' <> "" ->
  PyStr.startswith e "-" = false -> PyStr.startswith e' "-" = false ->
  fst (_validate_path (X ++ e)) = true ->
  fst (_validate_path (X ++ e')) = true.
Proof.
  intros Se Se' Ne Ne' De De' V.
  apply validate_accepts in V as [_ V]. apply validate_accepts. split.
  { destruct X; [exact Ne' | discriminate]. }
  rewrite (split_app_nosep _ _ _ Se) in V.
  rewrite (split_app_nosep _ _ _ Se').
  rewrite some_part_dashed_app in *.
  apply orb_false_iff in V as [V1 V2]. rewrite V1. cbn [orb some_part_dashed] in *.
  destruct (last (PyStr.split OsPath.sep X) "") as [|a l].
  - cbn [append]. now rewrite De'.
  - rewrite startswith_app in * by (discriminate || reflexivity).
    destruct (PyStr.startswith (String a l) "-"); [discriminate | reflexivity].
Qed.

Lemma output_path_valid (path : string) :
  fst (_validate_path path) = true ->
  (PyStr.endswith path ".ipynb" = true ->
   fst (_validate_path (output_to_marimo path)) = true)
  /\ (PyStr.endswith path ".mo.py" = true ->
      fst (_validate_path (output_from_marimo path)) = true).
Proof.
  intros V. split; intros E;
    destruct (endswith_inv _ _ E) as [X ->];
    unfold output_to_marimo, output_from_marimo;
    rewrite drop_last6_app by reflexivity.
  - apply (swap_keeps_validity X ".ipynb" ".mo.py"); auto; discriminate.
  - apply (swap_keeps_validity X ".mo.py" ".ipynb"); auto; discriminate.
Qed.

(** X11: the output path derived from a source path that passes
    [_validate_path] passes [_validate_path] too: swapping the extension
    cannot make a part begin with a dash. *)
Theorem X11_output_path_is_valid :
  forall path : string,
    fst (_validate_path path) = true ->
    (PyStr.endswith path ".ipynb" = true ->
     fst (_validate_path (output_to_marimo path)) = true)
    /\ (PyStr.endswith path ".mo.py" = true ->
        fst (_validate_path (output_from_marimo path)) = true).
Proof.
  intros path V. split; intros E;
    destruct (endswith_inv _ _ E) as [X ->];
    unfold output_to_marimo, output_from_marimo;
    rewrite drop_last6_app by reflexivity.
  - apply (swap_keeps_validity X ".ipynb" ".mo.py"); auto; discriminate.
  - apply (swap_keeps_validity X ".mo.py" ".ipynb"); auto; discriminate.
Qed.

(** X12: what [_validate_path] is for.  When the root directory does not
    begin with a dash, the command line of every child process is
    [marimo convert SRC -o OUT] or [marimo export ipynb SRC -o OUT] with a
    [SRC] and an [OUT] that do not begin with a dash, so neither can be
    read as an option. *)
Theorem X12_no_option_injection :
  forall (req : Request) (w : World) (root : string) (c : run_call),
    get_root_dir req w = inr root ->
    PyStr.startswith root "-" = false ->
    spawned (snd (post req w)) = (spawned w ++ [c])%list ->
    exists src out,
      (args c = ["marimo"; "convert"; src; "-o"; out]
       \/ args c = ["marimo"; "export"; "ipynb"; src; "-o"; out])
      /\ PyStr.startswith src "-" = false
      /\ PyStr.startswith out "-" = false.
Proof.
  intros req w root c R Hr Hc.
  destruct (post_spawn_inv _ _ _ Hc) as (kv & path & root' & St & Hd).
  destruct St as (_ & _ & V & R' & _ & Hext).
  assert (root' = root) by congruence. subst root'.
  pose proof (validated_no_leading_dash _ V) as Hp.
  destruct Hd as [(D & -> & _) | (D & -> & _)];
    destruct Hext as [(D' & E & _) | (D' & E & _)]; try congruence;
    do 2 eexists; (split; [cbn [args convert_call export_call]; eauto|]);
    (split; [now apply join_no_leading_dash|]);
    apply join_no_leading_dash; auto;
    apply validated_no_leading_dash;
    now apply (output_path_valid path V).
Qed.

Lemma join_absolute_path (root p : string) :
  PyStr.startswith p "/" = true -> OsPath.join root p = p.
Proof. intros H. unfold OsPath.join. now rewrite H. Qed.

(** X13: an absolute source path is used as it is: [os.path.join] drops
    the root directory, so the child process is started on the source path
    itself and on the output path derived from it, whatever the root. *)
Theorem X13_absolute_path_ignores_root :
  forall (req : Request) (kv : list (string * json)) (path : string)
         (w : World) (c : run_call),
    json_body req = inr (JDict kv) ->
    Py.dict_get kv "sourcePath" = JStr path ->
    PyStr.startswith path "/" = true ->
    spawned (snd (post req w)) = (spawned w ++ [c])%list ->
    c = convert_call path (output_to_marimo path)
    \/ c = export_call path (output_from_marimo path).
Proof.
  intros req kv path w c Hb Hs Ha Hc.
  destruct (post_spawn_inv _ _ _ Hc) as (kv' & path' & root & St & Hd).
  destruct St as (Hb' & Hs' & _ & _ & _ & Hext).
  assert (kv' = kv) by congruence. subst kv'.
  assert (path' = path) by congruence. subst path'.
  assert (Hout : forall e e', String.length e = 6 -> String.length e' = 6 ->
            PyStr.startswith e "/" = false ->
            PyStr.endswith path e = true ->
            PyStr.startswith (PyStr.drop_last6 path ++ e') "/" = true).
  { intros e e' Le Le' Re E. destruct (endswith_inv _ _ E) as [X ->].
    rewrite drop_last6_app by exact Le.
    destruct X as [|a X]; [cbn [append] in Ha; congruence|].
    rewrite startswith_app in * by (discriminate || reflexivity). exact Ha. }
  destruct Hd as [(D & -> & _) | (D & -> & _)];
    destruct Hext as [(D' & E & _) | (D' & E & _)]; try congruence;
    [left | right]; rewrite (join_absolute_path _ _ Ha); f_equal;
    apply join_absolute_path;
    unfold output_to_marimo, output_from_marimo.
  - now apply (Hout ".ipynb").
  - now apply (Hout ".mo.py").
Qed.

End ChildPaths.

(** ** The messages of the path validator *)

Lemma dashed_parts_split (l : list string) :
  l <> [] ->
  some_part_dashed l
  = some_part_dashed (removelast l) || PyStr.startswith (last l "") "-".
Proof.
  intros H. rewrite (app_removelast_last "" H) at 1.
  rewrite some_part_dashed_app. cbn [some_part_dashed].
  now destruct (PyStr.startswith (last l "") "-").
Qed.

(** X14: which message a rejected path gets.  The empty path gets "Path
    cannot be empty"; a path whose last part begins with a dash gets "File
    names starting with '-' are not allowed", also when an earlier part
    does too; "Path components starting with '-' are not allowed" is left
    for the paths whose last part is fine and an earlier part begins with a
    dash. *)
Theorem X14_validation_messages :
  forall path : string,
    (snd (_validate_path path) = Some msg_empty <-> path = "")
    /\ (snd (_validate_path path) = Some msg_basename <->
        path <> ""
        /\ PyStr.startswith (last (PyStr.split OsPath.sep path) "") "-" = true)
    /\ (snd (_validate_path path) = Some msg_component <->
        path <> ""
        /\ PyStr.startswith (last (PyStr.split OsPath.sep path) "") "-" = false
        /\ exists part,
            In part (removelast (PyStr.split OsPath.sep path))
            /\ PyStr.startswith part "-" = true).
Proof.
  intros path. unfold _validate_path. rewrite basename_last.
  rewrite <- some_part_dashed_spec.
  rewrite (dashed_parts_split _ (split_not_nil OsPath.sep path)).
  destruct path as [|a t]; cbn [PyStr.truthy negb snd].
  { repeat split; try discriminate; try tauto; intros [H _]; congruence. }
  destruct (PyStr.startswith (last _ "") "-");
    [|destruct (some_part_dashed (removelast _))];
    cbn [orb snd]; repeat split; try discriminate; try congruence;
    try (intros [_ [H _]]; discriminate); try (intros [_ H]; discriminate);
    try (intros [_ [_ H]]; discriminate).
Qed.

(** ** There and back *)
Section ThereAndBack.

Context {host : Host}.

(** [post] on a request that passes every check and finds its file. *)
Lemma post_converts (req : Request) (kv : list (string * json))
      (path root : string) (w : World) :
  json_body req = inr (JDict kv) ->
  Py.dict_get kv "sourcePath" = JStr path ->
  fst (_validate_path path) = true ->
  get_root_dir req w = inr root ->
  os_path_isfile (fs w) (OsPath.join root path) = true ->
  (Py.dict_get kv "direction" = JStr "to_marimo" ->
   PyStr.endswith path ".ipynb" = true ->
   post req w =
   respond (output_to_marimo path)
     (_convert_to_marimo (OsPath.join root path)
        (OsPath.join root (output_to_marimo path)) w))
  /\ (Py.dict_get kv "direction" = JStr "from_marimo" ->
      PyStr.endswith path ".mo.py" = true ->
      post req w =
      respond (output_from_marimo path)
        (_convert_from_marimo (OsPath.join root path)
           (OsPath.join root (output_from_marimo path)) w)).
Proof.
  intros Hb Hs V R F. split; intros D E; unfold post;
    rewrite (post_try_checked _ _ _ _ _ Hb Hs V (or_intror D) R)
    || rewrite (post_try_checked _ _ _ _ _ Hb Hs V (or_introl D) R);
    unfold convert; rewrite F, D, E; cbn [negb Py.eq_str String.eqb];
    unfold sent; cbn; now rewrite <- surjective_pairing.
Qed.

(** X15: there and back.  After a [to_marimo] request for [path] that
    succeeded, a [from_marimo] request for the [outputPath] it answered,
    under the same root directory, passes validation and the extension
    check, is run on the file the first child process was asked to write,
    and, when that file exists and the second child process exits with
    code 0, answers the original [path] as its [outputPath]. *)
Theorem X15_there_and_back :
  forall (root path : string) (w : World) (out err out' err' : string),
    let cm := Some {| root_dir := Some root |} in
    let there :=
      {| json_body := inr (JDict [("sourcePath", JStr path);
                                  ("direction", JStr "to_marimo")]);
         contents_manager := cm |} in
    let back :=
      {| json_body := inr (JDict [("sourcePath",
                                   JStr (output_to_marimo path));
                                  ("direction", JStr "from_marimo")]);
         contents_manager := cm |} in
    let w1 := snd (post there w) in
    fst (_validate_path path) = true ->
    PyStr.endswith path ".ipynb" = true ->
    os_path_isfile (fs w) (OsPath.join root path) = true ->
    fst (subprocess_run (fs w)
           (convert_call (OsPath.join root path)
              (OsPath.join root (output_to_marimo path))))
    = CompletedProcess 0 out err ->
    os_path_isfile (fs w1) (OsPath.join root (output_to_marimo path)) = true ->
    fst (subprocess_run (fs w1)
           (export_call (OsPath.join root (output_to_marimo path))
              (OsPath.join root path)))
    = CompletedProcess 0 out' err' ->
    fst (post there w)
    = {| status := 200; body := succeeded (output_to_marimo path) |}
    /\ fst (post back w1) = {| status := 200; body := succeeded path |}
    /\ spawned (snd (post back w1))
       = (spawned w
          ++ [convert_call (OsPath.join root path)
                (OsPath.join root (output_to_marimo path));
              export_call (OsPath.join root (output_to_marimo path))
                (OsPath.join root path)])%list.
Proof.
  intros root path w out err out' err' cm there back w1 V E F R1 F2 R2.
  destruct (post_converts there _ path root w eq_refl eq_refl V eq_refl F)
    as [P1 _].
  specialize (P1 eq_refl E).
  assert (W1 : spawned w1
               = (spawned w ++ [convert_call (OsPath.join root path)
                     (OsPath.join root (output_to_marimo path))])%list).
  { unfold w1. rewrite P1, respond_world, to_marimo_world, run_world.
    reflexivity. }
  destruct (output_path_valid path V) as [V2 _]. specialize (V2 E).
  destruct (endswith_inv _ _ E) as [X HX].
  assert (E2 : PyStr.endswith (output_to_marimo path) ".mo.py" = true).
  { apply endswith_app. }
  assert (B : output_from_marimo (output_to_marimo path) = path).
  { rewrite HX. unfold output_to_marimo, output_from_marimo.
    now rewrite !drop_last6_app by reflexivity. }
  destruct (post_converts back _ (output_to_marimo path) root w1
              eq_refl eq_refl V2 eq_refl F2) as [_ P2].
  specialize (P2 eq_refl E2). rewrite B in P2.
  split; [|split].
  - rewrite P1, respond_fst, to_marimo_answer, R1. reflexivity.
  - rewrite P2, respond_fst, from_marimo_answer, R2. reflexivity.
  - rewrite P2, respond_world, from_marimo_world, run_world. cbn [spawned].
    rewrite W1, <- List.app_assoc. reflexivity.
Qed.

End ThereAndBack.

(** ** The lifetime of the child process *)
Section ChildLifetime.

Context {machine : Subprocess.Machine}.

Local Existing Instance Subprocess.host.

Lemma fresh_not_running (ps : list Subprocess.pid) :
  ~ In (Subprocess.fresh ps) ps.
Proof.
  intros H. unfold Subprocess.fresh in H.
  assert (L : Forall (fun k => k <= list_max ps) ps).
  { now apply list_max_le. }
  rewrite Forall_forall in L. apply L in H. lia.
Qed.

Lemma remove_fresh (ps : list Subprocess.pid) :
  remove Nat.eq_dec (Subprocess.fresh ps) (Subprocess.fresh ps :: ps) = ps.
Proof.
  cbn [remove]. destruct (Nat.eq_dec _ _); [|congruence].
  apply notin_remove, fresh_not_running.
Qed.

(** [subprocess.run] leaves no child behind: the children that run after
    it are those that ran before, however the call ended. *)
Lemma run_reaps (s : Subprocess.State) (c : run_call) :
  Subprocess.running (snd (subprocess_run s c)) = Subprocess.running s.
Proof.
  cbn [subprocess_run Subprocess.host].
  unfold Subprocess.run, Subprocess.popen.
  destruct (Subprocess.cannot_start _ _); [reflexivity|].
  unfold Subprocess.communicate. cbn [Subprocess.files Subprocess.running].
  destruct (Subprocess.child _ _ _) as [[rc out err | msg | e] f];
    cbn [snd Subprocess.kill_wait Subprocess.running];
    apply remove_fresh.
Qed.

(** When the program starts and the time runs out, [subprocess.run]
    raises [TimeoutExpired]. *)
Lemma run_expired (s : Subprocess.State) (c : run_call) (msg : string) :
  Subprocess.cannot_start (Subprocess.files s) (args c) = None ->
  fst (Subprocess.child (Subprocess.files s) (args c) (timeout c))
  = Subprocess.Expired msg ->
  fst (subprocess_run s c) = Raised (Exc TimeoutExpired msg).
Proof.
  intros Hs He. cbn [subprocess_run Subprocess.host].
  unfold Subprocess.run, Subprocess.popen. rewrite Hs.
  unfold Subprocess.communicate. cbn [Subprocess.files].
  destruct (Subprocess.child _ _ _) as [r f]. cbn [fst] in He. now subst r.
Qed.

(** C6: a request that passes every check starts the converter, once and
    with a timeout of 30 seconds.  When the child process is still running
    after that time, the answer is status 500 with the fixed message of the
    direction, "Conversion timed out after 30 seconds" or "Export timed out
    after 30 seconds", and the child process has been killed: it is not
    among the children that run once the request is answered, which are
    those that ran before the request. *)
Theorem C6_timeout_child_terminated :
  forall (req : Request) (kv : list (string * json)) (path root : string)
         (w : World),
    json_body req = inr (JDict kv) ->
    Py.dict_get kv "sourcePath" = JStr path ->
    fst (_validate_path path) = true ->
    get_root_dir req w = inr root ->
    os_path_isfile (fs w) (OsPath.join root path) = true ->
    ((Py.dict_get kv "direction" = JStr "to_marimo"
      /\ PyStr.endswith path ".ipynb" = true)
     \/ (Py.dict_get kv "direction" = JStr "from_marimo"
         /\ PyStr.endswith path ".mo.py" = true)) ->
    exists (c : run_call) (fixed : string),
      ((c = convert_call (OsPath.join root path)
                         (OsPath.join root (output_to_marimo path))
        /\ fixed = msg_convert_timeout)
       \/ (c = export_call (OsPath.join root path)
                           (OsPath.join root (output_from_marimo path))
           /\ fixed = msg_export_timeout))
      /\ spawned (snd (post req w)) = (spawned w ++ [c])%list
      /\ timeout c = Some 30%Z
      /\ Subprocess.running (fs (snd (post req w))) = Subprocess.running (fs w)
      /\ forall msg : string,
          Subprocess.cannot_start (Subprocess.files (fs w)) (args c) = None ->
          fst (Subprocess.child (Subprocess.files (fs w)) (args c) (Some 30%Z))
          = Subprocess.Expired msg ->
          fst (post req w)
          = {| status := 500; body := failure (JStr fixed) |}
          /\ ~ In (Subprocess.fresh (Subprocess.running (fs w)))
                 (Subprocess.running (fs (snd (post req w)))).
Proof.
  intros req kv path root w Hb Hs V R F D.
  destruct (post_converts req kv path root w Hb Hs V R F) as [P1 P2].
  destruct D as [[D E] | [D E]].
  - specialize (P1 D E). clear P2.
    exists (convert_call (OsPath.join root path)
                         (OsPath.join root (output_to_marimo path))),
           msg_convert_timeout.
    assert (W : snd (post req w)
                = {| fs := snd (subprocess_run (fs w)
                                  (convert_call (OsPath.join root path)
                                     (OsPath.join root (output_to_marimo path))));
                     spawned := (spawned w
                                 ++ [convert_call (OsPath.join root path)
                                       (OsPath.join root
                                          (output_to_marimo path))])%list |}).
    { now rewrite P1, respond_world, to_marimo_world, run_world. }
    assert (Live : Subprocess.running (fs (snd (post req w)))
                   = Subprocess.running (fs w)).
    { rewrite W. cbn [fs]. apply run_reaps. }
    split; [now left|]. split; [now rewrite W|]. split; [reflexivity|].
    split; [exact Live|]. intros msg Hstart Hlate. split.
    + rewrite P1, respond_fst, to_marimo_answer.
      now rewrite (run_expired _ _ msg Hstart Hlate).
    + rewrite Live. apply fresh_not_running.
  - specialize (P2 D E). clear P1.
    exists (export_call (OsPath.join root path)
                        (OsPath.join root (output_from_marimo path))),
           msg_export_timeout.
    assert (W : snd (post req w)
                = {| fs := snd (subprocess_run (fs w)
                                  (export_call (OsPath.join root path)
                                     (OsPath.join root
                                        (output_from_marimo path))));
                     spawned := (spawned w
                                 ++ [export_call (OsPath.join root path)
                                       (OsPath.join root
                                          (output_from_marimo path))])%list |}).
    { now rewrite P2, respond_world, from_marimo_world, run_world. }
    assert (Live : Subprocess.running (fs (snd (post req w)))
                   = Subprocess.running (fs w)).
    { rewrite W. cbn [fs]. apply run_reaps. }
    split; [now right|]. split; [now rewrite W|]. split; [reflexivity|].
    split; [exact Live|]. intros msg Hstart Hlate. split.
    + rewrite P2, respond_fst, from_marimo_answer.
      now rewrite (run_expired _ _ msg Hstart Hlate).
    + rewrite Live. apply fresh_not_running.
Qed.

End ChildLifetime.

(** * Examples *)

(** ** Requests on which the claims as first stated fail *)

(** C2 as first written fails: [/etc/x.ipynb] passes validation, and joined
    to the root [/srv/nb] it is [/etc/x.ipynb]; the child process is started
    on it and on [/etc/x.mo.py], neither under the root. *)
Lemma C2_absolute_path_escapes :
  fst (_validate_path "/etc/x.ipynb") = true
  /\ OsPath.join "/srv/nb" "/etc/x.ipynb" = "/etc/x.ipynb"
  /\ Contain.contained_under "/srv/nb" (OsPath.join "/srv/nb" "/etc/x.ipynb")
     = false
  /\ Contain.contained_under "/srv/nb"
       (OsPath.join "/srv/nb" (output_to_marimo "/etc/x.ipynb")) = false
  /\ spawned (snd (Demo.handle Demo.ok
                     (Demo.request "/etc/x.ipynb" "to_marimo")
                     ["/etc/x.ipynb"]))
     = [convert_call "/etc/x.ipynb" "/etc/x.mo.py"].
Proof. repeat split. Qed.

(** C3 as first written fails: a [to_marimo] request for [a/x.txt], which
    does not end in [.ipynb], is answered "Source file not found" when no
    such file exists, not with the extension mismatch. *)
Lemma C3_missing_file_answered_first :
  PyStr.endswith "a/x.txt" ".ipynb" = false
  /\ fst (Demo.handle Demo.ok (Demo.request "a/x.txt" "to_marimo") [])
     = {| status := 400;
          body := failure (JStr "Source file not found: a/x.txt") |}
  /\ body (fst (Demo.handle Demo.ok (Demo.request "a/x.txt" "to_marimo") []))
     <> failure (JStr msg_need_ipynb).
Proof. repeat split. discriminate. Qed.

(** C5 as first written fails: with exit code 1 and stderr ["boom"] the
    error message is ["Conversion failed: boom"], which contains the trimmed
    stderr but is not equal to it. *)
Lemma C5_message_has_prefix :
  fst (Demo.handle (CompletedProcess 1 "" "boom")
         (Demo.request "x.ipynb" "to_marimo") ["/srv/nb/x.ipynb"])
  = {| status := 500; body := failure (JStr "Conversion failed: boom") |}
  /\ PyStr.strip "boom" = "boom"
  /\ body (fst (Demo.handle (CompletedProcess 1 "" "boom")
                  (Demo.request "x.ipynb" "to_marimo") ["/srv/nb/x.ipynb"]))
     <> failure (JStr (PyStr.strip "boom")).
Proof. repeat split. discriminate. Qed.

(** ** The theorems at work on concrete requests *)

Lemma C1_dashed_path_rejected_witness :
  PyStr.startswith (OsPath.basename "a/-x.ipynb") "-" = true
  /\ status (fst (post (Demo.request "a/-x.ipynb" "to_marimo")
                    (Demo.world Demo.ok ["/srv/nb/a/-x.ipynb"]))) = 400%Z
  /\ spawned (snd (post (Demo.request "a/-x.ipynb" "to_marimo")
                     (Demo.world Demo.ok ["/srv/nb/a/-x.ipynb"]))) = [].
Proof.
  split; [reflexivity|].
  destruct (C1_dashed_path_rejected (host := Demo.host Demo.ok)
              (Demo.request "a/-x.ipynb" "to_marimo")
              [("sourcePath", JStr "a/-x.ipynb");
               ("direction", JStr "to_marimo")]
              "a/-x.ipynb"
              (Demo.world Demo.ok ["/srv/nb/a/-x.ipynb"]))
    as (S & L & _);
    [reflexivity | reflexivity | left; reflexivity |].
  split; [exact S | exact L].
Defined.

Lemma C2_relative_paths_contained_witness :
  Contain.no_dotdot "a/x.ipynb" = true
  /\ Contain.contained_under "/srv/nb" (OsPath.join "/srv/nb" "a/x.ipynb")
     = true.
Proof.
  split; [reflexivity|].
  apply (C2_relative_paths_contained (host := Demo.host Demo.ok)
           (Demo.request "a/x.ipynb" "to_marimo")
           [("sourcePath", JStr "a/x.ipynb"); ("direction", JStr "to_marimo")]
           "a/x.ipynb" "/srv/nb"
           (Demo.world Demo.ok ["/srv/nb/a/x.ipynb"]));
    reflexivity.
Defined.

Lemma C3_existence_before_extension_witness :
  PyStr.endswith "a/x.txt" ".ipynb" = false
  /\ post (Demo.request "a/x.txt" "to_marimo")
       (Demo.world Demo.ok ["/srv/nb/a/x.txt"])
     = ({| status := 400; body := failure (JStr msg_need_ipynb) |},
        Demo.world Demo.ok ["/srv/nb/a/x.txt"]).
Proof.
  split; [reflexivity|].
  apply (C3_existence_before_extension (host := Demo.host Demo.ok)
           (Demo.request "a/x.txt" "to_marimo")
           [("sourcePath", JStr "a/x.txt"); ("direction", JStr "to_marimo")]
           "a/x.txt" "/srv/nb"
           (Demo.world Demo.ok ["/srv/nb/a/x.txt"]));
    reflexivity.
Defined.

Lemma C4_success_response_witness :
  status (fst (post (Demo.request "a/x.ipynb" "to_marimo")
                 (Demo.world Demo.ok ["/srv/nb/a/x.ipynb"]))) = 200%Z.
Proof.
  apply (C4_success_response (host := Demo.host Demo.ok)
           (Demo.request "a/x.ipynb" "to_marimo")
           [("sourcePath", JStr "a/x.ipynb"); ("direction", JStr "to_marimo")]
           "a/x.ipynb"
           (Demo.world Demo.ok ["/srv/nb/a/x.ipynb"])
           (convert_call "/srv/nb/a/x.ipynb" "/srv/nb/a/x.mo.py") "" "");
    reflexivity.
Defined.

Lemma C5_failure_message_witness :
  status (fst (post (Demo.request "x.mo.py" "from_marimo")
                 (Demo.world (CompletedProcess 1 "" " boom ")
                    ["/srv/nb/x.mo.py"]))) = 500%Z.
Proof.
  apply (C5_failure_message (host := Demo.host (CompletedProcess 1 "" " boom "))
           (Demo.request "x.mo.py" "from_marimo")
           (Demo.world (CompletedProcess 1 "" " boom ") ["/srv/nb/x.mo.py"])
           (export_call "/srv/nb/x.mo.py" "/srv/nb/x.ipynb") 1%Z "" " boom ");
    [reflexivity | reflexivity | discriminate].
Defined.


(** ** The further properties at work on concrete requests *)

Lemma X1_source_path_required_witness :
  status (fst (post {| json_body := inr (JDict [("direction", JStr "to_marimo")]);
                       contents_manager := Demo.server |}
                 (Demo.world Demo.ok []))) = 400%Z.
Proof.
  rewrite (X1_source_path_required (host := Demo.host Demo.ok)
             {| json_body := inr (JDict [("direction", JStr "to_marimo")]);
                contents_manager := Demo.server |}
             [("direction", JStr "to_marimo")]
             (Demo.world Demo.ok []) eq_refl (or_introl eq_refl)).
  reflexivity.
Defined.

Lemma X2_direction_checked_before_path_witness :
  fst (post (Demo.request "-x.ipynb" "sideways")
         (Demo.world Demo.ok ["/srv/nb/-x.ipynb"]))
  = {| status := 400; body := failure (JStr msg_direction) |}.
Proof.
  rewrite (X2_direction_checked_before_path (host := Demo.host Demo.ok)
             (Demo.request "-x.ipynb" "sideways")
             [("sourcePath", JStr "-x.ipynb"); ("direction", JStr "sideways")]
             (Demo.world Demo.ok ["/srv/nb/-x.ipynb"]));
    [reflexivity | reflexivity | reflexivity | discriminate | discriminate].
Defined.

Lemma X3_non_object_body_witness :
  fst (post {| json_body := inr (JList [JStr "a.ipynb"]);
               contents_manager := Demo.server |}
         (Demo.world Demo.ok []))
  = {| status := 500;
       body := failure (JStr "'list' object has no attribute 'get'") |}.
Proof.
  rewrite (X3_non_object_body (host := Demo.host Demo.ok)
             {| json_body := inr (JList [JStr "a.ipynb"]);
                contents_manager := Demo.server |}
             (JList [JStr "a.ipynb"]) (Demo.world Demo.ok []));
    [reflexivity | reflexivity | discriminate].
Defined.

Lemma X4_non_string_source_path_witness :
  fst (post {| json_body := inr (JDict [("sourcePath", JInt 7);
                                        ("direction", JStr "to_marimo")]);
               contents_manager := Demo.server |}
         (Demo.world Demo.ok []))
  = {| status := 500;
       body := failure
                 (JStr "expected str, bytes or os.PathLike object, not int") |}.
Proof.
  rewrite (X4_non_string_source_path (host := Demo.host Demo.ok)
             {| json_body := inr (JDict [("sourcePath", JInt 7);
                                         ("direction", JStr "to_marimo")]);
                contents_manager := Demo.server |}
             [("sourcePath", JInt 7); ("direction", JStr "to_marimo")]
             (Demo.world Demo.ok []));
    [reflexivity | reflexivity | reflexivity | discriminate
     | left; reflexivity].
Defined.

Lemma X5_source_file_not_found_witness :
  fst (post (Demo.request "a/x.ipynb" "to_marimo") (Demo.world Demo.ok []))
  = {| status := 400;
       body := failure (JStr "Source file not found: a/x.ipynb") |}.
Proof.
  rewrite (X5_source_file_not_found (host := Demo.host Demo.ok)
             (Demo.request "a/x.ipynb" "to_marimo")
             [("sourcePath", JStr "a/x.ipynb"); ("direction", JStr "to_marimo")]
             "a/x.ipynb" "/srv/nb" (Demo.world Demo.ok []));
    try reflexivity. left; reflexivity.
Defined.

Lemma X8_converter_exceptions_witness :
  status (fst (post (Demo.request "x.ipynb" "to_marimo")
                 (Demo.world (Raised (Exc FileNotFoundError "marimo"))
                    ["/srv/nb/x.ipynb"]))) = 500%Z.
Proof.
  apply (X8_converter_exceptions
           (host := Demo.host (Raised (Exc FileNotFoundError "marimo")))
           (Demo.request "x.ipynb" "to_marimo")
           (Demo.world (Raised (Exc FileNotFoundError "marimo"))
              ["/srv/nb/x.ipynb"])
           (convert_call "/srv/nb/x.ipynb" "/srv/nb/x.mo.py")
           (Exc FileNotFoundError "marimo"));
    reflexivity.
Defined.

Lemma X9_blank_stderr_witness :
  fst (post (Demo.request "x.ipynb" "to_marimo")
         (Demo.world (CompletedProcess 2 "" "  ") ["/srv/nb/x.ipynb"]))
  = {| status := 500; body := failure (JStr "Conversion failed: ") |}.
Proof.
  destruct (X9_blank_stderr (host := Demo.host (CompletedProcess 2 "" "  "))
              (Demo.request "x.ipynb" "to_marimo")
              (Demo.world (CompletedProcess 2 "" "  ") ["/srv/nb/x.ipynb"])
              (convert_call "/srv/nb/x.ipynb" "/srv/nb/x.mo.py")
              2%Z "" "  ")
    as [[_ H] | [[s [o E]] _]];
    [reflexivity | reflexivity | discriminate | discriminate | reflexivity
     | exact H | discriminate E].
Defined.

Lemma X10_root_directory_choice_witness :
  exists root,
    ((exists cm, Demo.server = Some cm /\ root_dir cm = Some root)
     \/ ((Demo.server = None
          \/ exists cm, Demo.server = Some cm /\ root_dir cm = None)
         /\ @os_getcwd (Demo.host Demo.ok) ["/srv/nb/x.ipynb"] = inr root))
    /\ (convert_call "/srv/nb/x.ipynb" "/srv/nb/x.mo.py"
        = convert_call (OsPath.join root "x.ipynb")
            (OsPath.join root (output_to_marimo "x.ipynb"))
        \/ convert_call "/srv/nb/x.ipynb" "/srv/nb/x.mo.py"
           = export_call (OsPath.join root "x.ipynb")
               (OsPath.join root (output_from_marimo "x.ipynb"))).
Proof.
  apply (X10_root_directory_choice (host := Demo.host Demo.ok)
           (Demo.request "x.ipynb" "to_marimo")
           [("sourcePath", JStr "x.ipynb"); ("direction", JStr "to_marimo")]
           "x.ipynb" (Demo.world Demo.ok ["/srv/nb/x.ipynb"])
           (convert_call "/srv/nb/x.ipynb" "/srv/nb/x.mo.py"));
    reflexivity.
Defined.

Lemma X11_output_path_is_valid_witness :
  fst (_validate_path (output_to_marimo "a/x.ipynb")) = true.
Proof.
  apply (proj1 (X11_output_path_is_valid "a/x.ipynb" eq_refl)). reflexivity.
Defined.

Lemma X12_no_option_injection_witness :
  exists src out,
    (args (convert_call "/srv/nb/x.ipynb" "/srv/nb/x.mo.py")
     = ["marimo"; "convert"; src; "-o"; out]
     \/ args (convert_call "/srv/nb/x.ipynb" "/srv/nb/x.mo.py")
        = ["marimo"; "export"; "ipynb"; src; "-o"; out])
    /\ PyStr.startswith src "-" = false
    /\ PyStr.startswith out "-" = false.
Proof.
  apply (X12_no_option_injection (host := Demo.host Demo.ok)
           (Demo.request "x.ipynb" "to_marimo")
           (Demo.world Demo.ok ["/srv/nb/x.ipynb"]) "/srv/nb"
           (convert_call "/srv/nb/x.ipynb" "/srv/nb/x.mo.py"));
    reflexivity.
Defined.

Lemma X13_absolute_path_ignores_root_witness :
  convert_call "/etc/x.ipynb" "/etc/x.mo.py"
  = convert_call "/etc/x.ipynb" (output_to_marimo "/etc/x.ipynb")
  \/ convert_call "/etc/x.ipynb" "/etc/x.mo.py"
     = export_call "/etc/x.ipynb" (output_from_marimo "/etc/x.ipynb").
Proof.
  apply (X13_absolute_path_ignores_root (host := Demo.host Demo.ok)
           (Demo.request "/etc/x.ipynb" "to_marimo")
           [("sourcePath", JStr "/etc/x.ipynb");
            ("direction", JStr "to_marimo")]
           "/etc/x.ipynb" (Demo.world Demo.ok ["/etc/x.ipynb"])
           (convert_call "/etc/x.ipynb" "/etc/x.mo.py"));
    reflexivity.
Defined.

Lemma X15_there_and_back_witness :
  fst (post (Demo.request "a/x.mo.py" "from_marimo")
         (snd (post (Demo.request "a/x.ipynb" "to_marimo")
                 (Demo.world Demo.ok ["/srv/nb/a/x.ipynb"]))))
  = {| status := 200; body := succeeded "a/x.ipynb" |}.
Proof.
  apply (X15_there_and_back (host := Demo.host Demo.ok)
           "/srv/nb" "a/x.ipynb" (Demo.world Demo.ok ["/srv/nb/a/x.ipynb"])
           "" "" "" "");
    reflexivity.
Defined.

Lemma C6_timeout_child_terminated_witness :
  fst (post (Demo.request "x.ipynb" "to_marimo")
         (Demo.slow_world ["/srv/nb/x.ipynb"]))
  = {| status := 500; body := failure (JStr msg_convert_timeout) |}
  /\ Subprocess.running
       (fs (snd (post (Demo.request "x.ipynb" "to_marimo")
                   (Demo.slow_world ["/srv/nb/x.ipynb"]))))
     = [7].
Proof.
  destruct (C6_timeout_child_terminated (machine := Demo.slow)
              (Demo.request "x.ipynb" "to_marimo")
              [("sourcePath", JStr "x.ipynb"); ("direction", JStr "to_marimo")]
              "x.ipynb" "/srv/nb" (Demo.slow_world ["/srv/nb/x.ipynb"])
              eq_refl eq_refl eq_refl eq_refl eq_refl
              (or_introl (conj eq_refl eq_refl)))
    as (c & fixed & Hc & Hlog & _ & Hlive & Hlate).
  destruct Hc as [[-> ->] | [-> _]]; [|discriminate Hlog].
  split; [|exact Hlive].
  exact (proj1 (Hlate "Command 'marimo' timed out after 30 seconds"
                  eq_refl eq_refl)).
Defined.
